(** * find-winners: a shallow embedding of [find_winners/core.py]

    The Python module ranks poker hands.  The embedding follows the source
    function by function:

    - Python exceptions are the [Raise] results of a small error monad;
    - a [Card] object is a record of its two one-character fields together
      with the identity of the object ([oid]): the class defines no
      [__eq__], so [card not in self.cards] and [!=] compare identities;
    - the dictionaries built by [arrange_by_suit] and [arrange_by_value] are
      association lists in insertion order (the order is observable through
      [.values()], [.items()] and the stable sorts);
    - [HandEvaluator] is a record; the [extract_*] methods, which assign
      [self.cards] and answer a boolean, pass the record explicitly;
    - [sorted] and [list.sort] with [reverse=True] are a stable insertion
      sort in descending order. *)

From Stdlib Require Import String Ascii ZArith Lia Bool Arith List Permutation Sorted.
Import ListNotations.

Local Open Scope string_scope.
Local Open Scope list_scope.

Set Implicit Arguments.

(** ** Exceptions *)

Inductive exn : Type :=
| IndexError
| KeyError
| ValueError
| TypeError.

Inductive result (A : Type) : Type :=
| Return (a : A)
| Raise (e : exn).

Arguments Return {A} a.
Arguments Raise {A} e.

Definition bind {A B : Type} (m : result A) (k : A -> result B) : result B :=
  match m with
  | Return a => k a
  | Raise e => Raise e
  end.

Notation "x <- m ;; k" := (bind m (fun x => k))
  (at level 61, m at next level, right associativity).
Notation "' p <- m ;; k" := (bind m (fun p => k))
  (at level 61, p pattern, m at next level, right associativity).

(** A list comprehension whose body may raise. *)
Fixpoint mapM {A B : Type} (f : A -> result B) (l : list A) : result (list B) :=
  match l with
  | [] => Return []
  | x :: l' => y <- f x ;; ys <- mapM f l' ;; Return (y :: ys)
  end.

(** ** Python primitives used by the module *)

(** [s[i]] on a string. *)
Definition str_index (s : string) (i : nat) : result ascii :=
  match String.get i s with
  | Some c => Return c
  | None => Raise IndexError
  end.

(** [l[i]] on a list. *)
Definition list_index {A : Type} (l : list A) (i : nat) : result A :=
  match nth_error l i with
  | Some x => Return x
  | None => Raise IndexError
  end.

(** [c in s] for a one-character string [c]. *)
Definition char_in (c : ascii) (s : string) : bool :=
  existsb (Ascii.eqb c) (list_ascii_of_string s).

(** [s.find(c)] for a one-character string [c]: the first position, or -1. *)
Fixpoint find_from (c : ascii) (l : list ascii) (i : Z) : Z :=
  match l with
  | [] => (-1)%Z
  | d :: l' => if Ascii.eqb d c then i else find_from c l' (i + 1)%Z
  end.

Definition str_find (s : string) (c : ascii) : Z :=
  find_from c (list_ascii_of_string s) 0%Z.

(** Comparison of one-character strings: by code point. *)
Definition char_lt (a b : ascii) : bool := (nat_of_ascii a <? nat_of_ascii b)%nat.

(** [sorted(l, reverse=True)] and [l.sort(reverse=True)]: descending for the
    order [lt], elements that compare equal keep their relative order. *)
Fixpoint insert_reverse {A : Type} (lt : A -> A -> bool) (x : A) (l : list A) : list A :=
  match l with
  | [] => [x]
  | y :: l' => if lt x y then y :: insert_reverse lt x l' else x :: l
  end.

Definition sort_reverse {A : Type} (lt : A -> A -> bool) (l : list A) : list A :=
  fold_right (insert_reverse lt) [] l.

(** Dictionaries with one-character keys, in insertion order. *)
Definition dict (V : Type) : Type := list (ascii * V).

Fixpoint dict_get {V : Type} (k : ascii) (d : dict V) : result V :=
  match d with
  | [] => Raise KeyError
  | (k', v) :: d' => if Ascii.eqb k' k then Return v else dict_get k d'
  end.

(** [d[k].append(x)] *)
Fixpoint dict_append {V : Type} (k : ascii) (x : V) (d : dict (list V)) : result (dict (list V)) :=
  match d with
  | [] => Raise KeyError
  | (k', l) :: d' =>
      if Ascii.eqb k' k then Return ((k', l ++ [x]) :: d')
      else d'' <- dict_append k x d' ;; Return ((k', l) :: d'')
  end.

(** ** Module constants *)

Definition SUITS : string := "CDHS".

Definition VALUES : string := "23456789TJQKA".

Inductive Rank : Type :=
| royal_flush
| straight_flush
| four_of_a_kind
| full_house
| flush
| straight
| three_of_a_kind
| two_pairs
| pair
| high_card.

Definition RANKS : list Rank :=
  [ royal_flush; straight_flush; four_of_a_kind; full_house; flush;
    straight; three_of_a_kind; two_pairs; pair; high_card ].

Definition Rank_eqb (a b : Rank) : bool :=
  match a, b with
  | royal_flush, royal_flush | straight_flush, straight_flush
  | four_of_a_kind, four_of_a_kind | full_house, full_house
  | flush, flush | straight, straight
  | three_of_a_kind, three_of_a_kind | two_pairs, two_pairs
  | pair, pair | high_card, high_card => true
  | _, _ => false
  end.

(** [l.index(x)] *)
Fixpoint index_from (x : Rank) (l : list Rank) (i : Z) : result Z :=
  match l with
  | [] => Raise ValueError
  | y :: l' => if Rank_eqb y x then Return i else index_from x l' (i + 1)%Z
  end.

(** ** class Card *)

Module Card.

Record t : Type := make { oid : nat; value : ascii; suit : ascii }.

(** [Card(code)]; [addr] is the identity of the object created. *)
Definition init (addr : nat) (code : string) : result t :=
  v <- str_index code 0 ;;
  s <- str_index code 1 ;;
  if negb (char_in v VALUES) then Raise ValueError
  else if negb (char_in s SUITS) then Raise ValueError
  else Return (make addr v s).

Definition repr (c : t) : string :=
  String (value c) (String (suit c) EmptyString).

Definition sort_key (c : t) : Z := str_find VALUES (value c).

(** [c is d] *)
Definition same (c d : t) : bool := Nat.eqb (oid c) (oid d).

End Card.

(** ** Dynamically typed equality

    [==] and [!=] are applied in the module to operands of different
    Python types; [pyval] holds the values that meet there. *)

#[warnings="-register-all"]
Inductive pyval : Type :=
| PInt (z : Z)
| PCard (c : Card.t)
| PList (l : list pyval)
| PTuple (l : list pyval).

Fixpoint py_eq (a b : pyval) : bool :=
  match a, b with
  | PInt x, PInt y => Z.eqb x y
  | PCard c, PCard d => Card.same c d
  | PList l, PList m =>
      (fix all2 (l m : list pyval) : bool :=
         match l, m with
         | [], [] => true
         | x :: l', y :: m' => py_eq x y && all2 l' m'
         | _, _ => false
         end) l m
  | PTuple l, PTuple m =>
      (fix all2 (l m : list pyval) : bool :=
         match l, m with
         | [], [] => true
         | x :: l', y :: m' => py_eq x y && all2 l' m'
         | _, _ => false
         end) l m
  | _, _ => false
  end.

Definition py_ne (a b : pyval) : bool := negb (py_eq a b).

(** [card in l]: some element is the same object ([Card] has no [__eq__]). *)
Definition card_in (c : Card.t) (l : list Card.t) : bool :=
  existsb (fun d => py_eq (PCard d) (PCard c)) l.

(** ** Arrangement helpers *)

(** The loop [for card in card_set: result[field(card)].append(card)], on
    the dictionary [d] built so far. *)
Fixpoint arrange_loop (field : Card.t -> ascii) (card_set : list Card.t)
    (d : dict (list Card.t)) : result (dict (list Card.t)) :=
  match card_set with
  | [] => Return d
  | card :: rest =>
      d' <- dict_append (field card) card d ;;
      arrange_loop field rest d'
  end.

Definition arrange_by_suit (card_set : list Card.t) : result (dict (list Card.t)) :=
  arrange_loop Card.suit card_set
    (map (fun s => (s, [])) (list_ascii_of_string SUITS)).

Definition arrange_by_value (card_set : list Card.t) : result (dict (list Card.t)) :=
  arrange_loop Card.value card_set
    (map (fun v => (v, [])) (list_ascii_of_string VALUES)).

Definition sort_by_value (card_set : list Card.t) : list Card.t :=
  sort_reverse (fun c d => (Card.sort_key c <? Card.sort_key d)%Z) card_set.

(** The sort key [(len(item[1]), item[0])] of [group_by_same_value], compared
    as Python compares tuples of an int and a string. *)
Definition item_lt (a b : ascii * list Card.t) : bool :=
  if (length (snd a) =? length (snd b))%nat then char_lt (fst a) (fst b)
  else (length (snd a) <? length (snd b))%nat.

Definition group_by_same_value (by_value : dict (list Card.t)) : list (list Card.t) :=
  let items := sort_reverse item_lt by_value in
  map snd (filter (fun item => negb (length (snd item) =? 0)%nat) items).

Definition all_same_suit (card_set : list Card.t) : bool :=
  match card_set with
  | [] => true
  | c0 :: rest => forallb (fun card => Ascii.eqb (Card.suit card) (Card.suit c0)) rest
  end.

(** ** class HandEvaluator *)

Module HandEvaluator.

Record t : Type := make {
  hand : list Card.t;
  cards : option (list Card.t);
  sorted_by_value : list Card.t;
  by_suit : dict (list Card.t);
  by_value : dict (list Card.t);
  groups : list (list Card.t)
}.

(** [self.cards = cs] *)
Definition set_cards (self : t) (cs : option (list Card.t)) : t :=
  make (hand self) cs (sorted_by_value self) (by_suit self) (by_value self)
       (groups self).

(** Reading [self.cards] where a list is needed ([None] is no list). *)
Definition cards_list (self : t) : result (list Card.t) :=
  match cards self with
  | Some cs => Return cs
  | None => Raise TypeError
  end.

(** *** extract_straight *)

Definition sequential : string := "AQKJT98765432A".

Definition sequences : list string :=
  map (fun i => substring i 5 sequential)
      (seq 0 (String.length sequential - 4)).

(** [all(len(self.by_value[v]) > 0 for v in sequence)] *)
Fixpoint all_present (by_value : dict (list Card.t)) (sequence : list ascii) : result bool :=
  match sequence with
  | [] => Return true
  | v :: rest =>
      lst <- dict_get v by_value ;;
      if (0 <? length lst)%nat then all_present by_value rest else Return false
  end.

(** [[self.by_value[v][0] for v in sequence]] *)
Definition first_of_each (by_value : dict (list Card.t)) (sequence : list ascii) : result (list Card.t) :=
  mapM (fun v => lst <- dict_get v by_value ;; list_index lst 0) sequence.

Fixpoint straight_loop (self : t) (sequences : list string) : result (bool * t) :=
  match sequences with
  | [] => Return (false, self)
  | sequence :: rest =>
      found <- all_present (by_value self) (list_ascii_of_string sequence) ;;
      if found then
        cs <- first_of_each (by_value self) (list_ascii_of_string sequence) ;;
        Return (true, set_cards self (Some cs))
      else straight_loop self rest
  end.

Definition extract_straight (self : t) : result (bool * t) :=
  straight_loop self sequences.

(** *** extract_straight_flush, extract_royal_flush *)

Definition extract_straight_flush (self : t) : result (bool * t) :=
  '(found, self) <- extract_straight self ;;
  test <- (if found : bool then cs <- cards_list self ;; Return (all_same_suit cs)
           else Return false) ;;
  if test : bool then Return (true, self)
  else Return (false, set_cards self None).

Definition extract_royal_flush (self : t) : result (bool * t) :=
  '(found, self) <- extract_straight_flush self ;;
  test <- (if found : bool then
             cs <- cards_list self ;;
             c <- list_index cs (length cs - 1) ;;
             Return (Ascii.eqb (Card.value c) "T")
           else Return false) ;;
  if test : bool then Return (true, self)
  else Return (false, set_cards self None).

(** *** complete_hand *)

Fixpoint complete_loop (src cs : list Card.t) : list Card.t :=
  match src with
  | [] => cs
  | card :: rest =>
      if negb (card_in card cs) then
        let cs' := cs ++ [card] in
        if (length cs' =? 5)%nat then cs' else complete_loop rest cs'
      else complete_loop rest cs
  end.

Definition complete_hand (self : t) : result t :=
  match cards self with
  | Some cs => Return (set_cards self (Some (complete_loop (sorted_by_value self) cs)))
  | None =>
      match sorted_by_value self with
      | [] => Return self
      | _ :: _ => Raise TypeError
      end
  end.

(** *** extract_n_of_a_kind and its three callers

    [self.groups[0][0]] is a card, which [!=] compares with the integer
    [n].  In the other branch [self.cards] becomes the card
    [self.groups[0][1]], on which [complete_hand] cannot test
    membership. *)
Definition extract_n_of_a_kind (self : t) (n : Z) : result (bool * t) :=
  g <- list_index (groups self) 0 ;;
  c <- list_index g 0 ;;
  if py_ne (PCard c) (PInt n) then Return (false, self)
  else
    _ <- list_index g 1 ;;
    match sorted_by_value self with
    | [] => Return (true, self)
    | _ :: _ => Raise TypeError
    end.

Definition extract_four_of_a_kind (self : t) : result (bool * t) :=
  extract_n_of_a_kind self 4.

Definition extract_three_of_a_kind (self : t) : result (bool * t) :=
  extract_n_of_a_kind self 3.

Definition extract_pair (self : t) : result (bool * t) :=
  extract_n_of_a_kind self 2.

(** *** extract_full_house *)

Definition extract_full_house (self : t) : result (bool * t) :=
  g0 <- list_index (groups self) 0 ;;
  test <- (if (length g0 =? 3)%nat then
             g1 <- list_index (groups self) 1 ;; Return (2 <=? length g1)%nat
           else Return false) ;;
  if test : bool then
    g1 <- list_index (groups self) 1 ;;
    Return (true, set_cards self (Some (g0 ++ firstn 2 g1)))
  else Return (false, self).

(** *** extract_flush *)

Definition extract_flush (self : t) : result (bool * t) :=
  let flush := filter (fun lst => (length lst =? 5)%nat) (map snd (by_suit self)) in
  match flush with
  | [] => Return (false, self)
  | _ :: _ =>
      keyed <- mapM (fun x => c <- list_index x 0 ;; Return (Card.sort_key c, x)) flush ;;
      let flush := map snd (sort_reverse (fun a b => (fst a <? fst b)%Z) keyed) in
      cs <- list_index flush 0 ;;
      Return (true, set_cards self (Some cs))
  end.

(** *** extract_two_pairs *)

Definition extract_two_pairs (self : t) : result (bool * t) :=
  g0 <- list_index (groups self) 0 ;;
  test <- (if (length g0 =? 2)%nat then
             g1 <- list_index (groups self) 1 ;; Return (length g1 =? 2)%nat
           else Return false) ;;
  if test : bool then
    g1 <- list_index (groups self) 1 ;;
    self <- complete_hand (set_cards self (Some (g0 ++ g1))) ;;
    Return (true, self)
  else Return (false, self).

(** *** extract_high_card *)

Definition extract_high_card (self : t) : result (bool * t) :=
  Return (true, set_cards self (Some (firstn 5 (sorted_by_value self)))).

(** *** extract_rank, evaluate, __init__ *)

Definition extract_rank (self : t) (rank : Rank) : result (bool * t) :=
  match rank with
  | royal_flush => extract_royal_flush self
  | straight_flush => extract_straight_flush self
  | four_of_a_kind => extract_four_of_a_kind self
  | full_house => extract_full_house self
  | flush => extract_flush self
  | straight => extract_straight self
  | three_of_a_kind => extract_three_of_a_kind self
  | two_pairs => extract_two_pairs self
  | pair => extract_pair self
  | high_card => extract_high_card self
  end.

(** The value returned is [Some (rank, self.cards)], or [None] when the
    loop runs to its end. *)
Fixpoint evaluate_loop (self : t) (ranks : list Rank)
    : result (option (Rank * option (list Card.t)) * t) :=
  match ranks with
  | [] => Return (None, self)
  | rank :: rest =>
      '(found, self) <- extract_rank self rank ;;
      if found : bool then Return (Some (rank, cards self), self)
      else evaluate_loop self rest
  end.

Definition evaluate (self : t) : result (option (Rank * option (list Card.t)) * t) :=
  evaluate_loop self RANKS.

Definition init (hand : list Card.t) : result t :=
  let sorted_by_value := sort_by_value hand in
  by_suit <- arrange_by_suit sorted_by_value ;;
  by_value <- arrange_by_value hand ;;
  let self := make hand None sorted_by_value by_suit by_value
                   (group_by_same_value by_value) in
  '(_, self) <- evaluate self ;;
  Return self.

End HandEvaluator.

(** [h = HandEvaluator(hand); h.evaluate()], as [hand_key] runs it. *)
Definition evaluate_hand (hand : list Card.t) : result (option (Rank * option (list Card.t))) :=
  h <- HandEvaluator.init hand ;;
  '(r, _) <- HandEvaluator.evaluate h ;;
  Return r.

(** ** hand_key, into_hand, find_winners *)

Definition hand_key (hand : list Card.t) : result (Z * list Z) :=
  r <- evaluate_hand hand ;;
  match r with
  | None => Raise TypeError
  | Some (rank, cards) =>
      i <- index_from rank RANKS 0 ;;
      let rank := (Z.of_nat (length RANKS) - i)%Z in
      match cards with
      | None => Raise TypeError
      | Some cards => Return (rank, map Card.sort_key cards)
      end
  end.

(** [[Card(code) for code in codes]], the comprehension of [into_hand] over
    the codes that [hand.split()] yields; the objects created are numbered
    from [addr]. *)
Definition cards_of_codes (addr : nat) (codes : list string) : result (list Card.t) :=
  mapM (fun '(i, code) => Card.init i code)
       (combine (seq addr (length codes)) codes).

(** [c.isspace()], for the characters with a code below 256 that the strings
    of the embedding hold. *)
Definition is_space (c : ascii) : bool :=
  let n := nat_of_ascii c in
  ((9 <=? n)%nat && (n <=? 13)%nat) || ((28 <=? n)%nat && (n <=? 32)%nat)
  || (n =? 133)%nat || (n =? 160)%nat.

(** [s.split()]: the maximal runs of characters that are no whitespace;
    [word] is the run that is being read. *)
Fixpoint split_loop (s : string) (word : string) : list string :=
  match s with
  | EmptyString =>
      match word with
      | EmptyString => []
      | String _ _ => [word]
      end
  | String c s' =>
      if is_space c then
        match word with
        | EmptyString => split_loop s' EmptyString
        | String _ _ => word :: split_loop s' EmptyString
        end
      else split_loop s' (String.append word (String c EmptyString))
  end.

Definition str_split (s : string) : list string := split_loop s EmptyString.

(** [into_hand(hand)]; the cards are the objects [addr], [addr + 1], ... *)
Definition into_hand (addr : nat) (hand : string) : result (list Card.t) :=
  cards_of_codes addr (str_split hand).

(** Python's [<] on lists of ints. *)
Fixpoint list_lt (a b : list Z) : bool :=
  match a, b with
  | [], [] => false
  | [], _ :: _ => true
  | _ :: _, [] => false
  | x :: a', y :: b' => if (x =? y)%Z then list_lt a' b' else (x <? y)%Z
  end.

Definition list_eqb (a b : list Z) : bool :=
  if list_eq_dec Z.eq_dec a b then true else false.

(** Python's [<] on the keys [(rank, card_keys)]. *)
Definition key_lt (a b : Z * list Z) : bool :=
  if (fst a =? fst b)%Z then list_lt (snd a) (snd b) else (fst a <? fst b)%Z.

Definition key_eqb (a b : Z * list Z) : bool :=
  (fst a =? fst b)%Z && list_eqb (snd a) (snd b).

(** Python's [<] on the entries [(key, idx)] of [hands_ranks]. *)
Definition entry_lt (a b : (Z * list Z) * nat) : bool :=
  if key_eqb (fst a) (fst b) then (snd a <? snd b)%nat else key_lt (fst a) (fst b).

(** The keys and entries as dynamically typed values, for [==]. *)
Definition py_key (k : Z * list Z) : pyval :=
  PTuple [PInt (fst k); PList (map PInt (snd k))].

Definition py_entry (e : (Z * list Z) * nat) : pyval :=
  PTuple [py_key (fst e); PInt (Z.of_nat (snd e))].

(** The loop over [hands_ranks[1:]]. *)
Fixpoint winners_loop (max_rank : (Z * list Z) * nat)
    (rest : list ((Z * list Z) * nat)) (winners : list nat) : list nat :=
  match rest with
  | [] => winners
  | (key, idx) :: rest' =>
      if py_eq (py_key key) (py_entry max_rank)
      then winners_loop max_rank rest' (winners ++ [idx])
      else winners
  end.

Definition find_winners (hands : list (list Card.t)) : result (list nat) :=
  hands_ranks <- mapM (fun '(idx, hand) => key <- hand_key hand ;; Return (key, idx))
                      (combine (seq 0 (length hands)) hands) ;;
  let hands_ranks := sort_reverse entry_lt hands_ranks in
  max_rank <- list_index hands_ranks 0 ;;
  first <- list_index hands_ranks 0 ;;
  let winners := [snd first] in
  Return (winners_loop max_rank (skipn 1 hands_ranks) winners).

(** * Vocabulary of the statements *)

(** The invariant that [Card.__init__] establishes. *)
Definition valid_card (c : Card.t) : Prop :=
  char_in (Card.value c) VALUES = true /\ char_in (Card.suit c) SUITS = true.

(** An object has one value and one suit: two cards of a hand with the same
    identity are the same card. *)
Definition one_object_one_card (hand : list Card.t) : Prop :=
  forall c d, In c hand -> In d hand -> Card.oid c = Card.oid d -> c = d.

(** [cs] takes cards out of [hand], each occurrence at most once. *)
Definition part_of (cs hand : list Card.t) : Prop :=
  exists rest, Permutation (cs ++ rest) hand.

(** The cards of [l] whose [field] is [k], in the order of [l]. *)
Definition select (field : Card.t -> ascii) (k : ascii) (l : list Card.t) : list Card.t :=
  filter (fun c => Ascii.eqb (field c) k) l.

(** The views that [HandEvaluator.__init__] computes from [hand]. *)
Record views_of (hand : list Card.t) (self : HandEvaluator.t) : Prop := {
  views_sorted : HandEvaluator.sorted_by_value self = sort_by_value hand;
  views_by_suit :
    HandEvaluator.by_suit self =
    map (fun s => (s, select Card.suit s (sort_by_value hand)))
        (list_ascii_of_string SUITS);
  views_by_value :
    HandEvaluator.by_value self =
    map (fun v => (v, select Card.value v hand)) (list_ascii_of_string VALUES);
  views_groups :
    HandEvaluator.groups self = group_by_same_value (HandEvaluator.by_value self)
}.

(** What a selection of [hand] looks like: as many cards as the hand allows
    up to five, taken out of the hand. *)
Definition selected (hand cs : list Card.t) : Prop :=
  length cs = Nat.min 5 (length hand) /\ part_of cs hand.

(** Outcome of an [extract_*] method started with the views of [hand]. *)
Definition extractor_ok (hand : list Card.t) (r : result (bool * HandEvaluator.t)) : Prop :=
  match r with
  | Return (found, self) =>
      views_of hand self /\
      (found = true ->
       exists cs, HandEvaluator.cards self = Some cs /\ selected hand cs)
  | Raise e => e = IndexError /\ length hand < 5
  end.

(** Outcome of [evaluate]. *)
Definition evaluate_ok (hand : list Card.t)
    (r : option (Rank * option (list Card.t))) : Prop :=
  match r with
  | Some (_, Some cs) => selected hand cs
  | _ => False
  end.

(** ** Running the module on card codes

    The hands of the scenarios are given by their codes.  [hands_of_codes]
    builds the cards of several hands, every card a new object;
    [evaluate_codes] evaluates one hand and reports the selected cards by
    their codes. *)

Fixpoint hands_of_codes (addr : nat) (hands : list (list string)) : result (list (list Card.t)) :=
  match hands with
  | [] => Return []
  | codes :: rest =>
      hand <- cards_of_codes addr codes ;;
      hands' <- hands_of_codes (addr + length codes) rest ;;
      Return (hand :: hands')
  end.

Definition evaluate_codes (codes : list string) : result (Rank * list string) :=
  hand <- cards_of_codes 0 codes ;;
  r <- evaluate_hand hand ;;
  match r with
  | Some (rank, Some cs) => Return (rank, map Card.repr cs)
  | _ => Raise TypeError
  end.

Definition find_winners_codes (hands : list (list string)) : result (list nat) :=
  hands <- hands_of_codes 0 hands ;;
  find_winners hands.

(** The clusters of a hand, by their codes. *)
Definition clusters_codes (codes : list string) : result (list (list string)) :=
  hand <- cards_of_codes 0 codes ;;
  by_value <- arrange_by_value hand ;;
  Return (map (map Card.repr) (group_by_same_value by_value)).

(** [extract_flush] on a new evaluator object, before [__init__] calls
    [evaluate]. *)
Definition flush_found (codes : list string) : result bool :=
  hand <- cards_of_codes 0 codes ;;
  let sorted_by_value := sort_by_value hand in
  by_suit <- arrange_by_suit sorted_by_value ;;
  by_value <- arrange_by_value hand ;;
  '(found, _) <- HandEvaluator.extract_flush
                   (HandEvaluator.make hand None sorted_by_value by_suit by_value
                                       (group_by_same_value by_value)) ;;
  Return found.

Definition tied_high_card_0 : list string := ["AS"; "KS"; "QS"; "JD"; "2C"; "3D"; "4H"].
Definition tied_high_card_1 : list string := ["AH"; "KH"; "QH"; "JD"; "2C"; "3D"; "4H"].
Definition king_high_run : list string := ["2C"; "7D"; "9H"; "TC"; "QS"; "JD"; "KH"].
Definition four_fours : list string := ["4C"; "4D"; "4H"; "4S"; "9C"; "9D"; "9H"].
Definition king_jack_gap : list string := ["KC"; "JD"; "TH"; "9S"; "8C"; "3D"; "2H"].
Definition queen_high_run : list string := ["QC"; "JD"; "TH"; "9S"; "8C"; "3D"; "2H"].
Definition six_spades : list string := ["2S"; "4S"; "6S"; "8S"; "TS"; "QS"; "3D"].

(** The cards of [2H 2D 2S 3H 3D 9C 4C] and of [2S 3D], as objects 0, 1, ... *)
Definition full_house_hand : list Card.t :=
  [ Card.make 0 "2" "H"; Card.make 1 "2" "D"; Card.make 2 "2" "S";
    Card.make 3 "3" "H"; Card.make 4 "3" "D"; Card.make 5 "9" "C";
    Card.make 6 "4" "C" ].

Definition two_card_hand : list Card.t :=
  [ Card.make 0 "2" "S"; Card.make 1 "3" "D" ].

(** The cards of [AS KS QS JS TS 2C 3D]. *)
Definition royal_flush_hand : list Card.t :=
  [ Card.make 0 "A" "S"; Card.make 1 "K" "S"; Card.make 2 "Q" "S";
    Card.make 3 "J" "S"; Card.make 4 "T" "S"; Card.make 5 "2" "C";
    Card.make 6 "3" "D" ].

(** The cards of [2S 4S 6S 8S TS QD 3D], of [2S 2D 6S 6D TS QD 3D] and of
    [2C 7D 9H TC 5S JD KH]. *)
Definition flush_hand : list Card.t :=
  [ Card.make 0 "2" "S"; Card.make 1 "4" "S"; Card.make 2 "6" "S";
    Card.make 3 "8" "S"; Card.make 4 "T" "S"; Card.make 5 "Q" "D";
    Card.make 6 "3" "D" ].

Definition two_pairs_hand : list Card.t :=
  [ Card.make 0 "2" "S"; Card.make 1 "2" "D"; Card.make 2 "6" "S";
    Card.make 3 "6" "D"; Card.make 4 "T" "S"; Card.make 5 "Q" "D";
    Card.make 6 "3" "D" ].

Definition high_card_hand : list Card.t :=
  [ Card.make 0 "2" "C"; Card.make 1 "7" "D"; Card.make 2 "9" "H";
    Card.make 3 "T" "C"; Card.make 4 "5" "S"; Card.make 5 "J" "D";
    Card.make 6 "K" "H" ].

(** A word that [split] can yield: not empty and free of whitespace. *)
Definition token (w : string) : Prop :=
  w <> EmptyString
  /\ forallb (fun c => negb (is_space c)) (list_ascii_of_string w) = true.

(** Two outcomes of an extractor that agree: the same exception, the same
    state after [True], or [False] twice. *)
Definition same_outcome (r1 r2 : result (bool * HandEvaluator.t)) : Prop :=
  match r1, r2 with
  | Raise e1, Raise e2 => e1 = e2
  | Return (true, s1), Return (true, s2) => s1 = s2
  | Return (false, _), Return (false, _) => True
  | _, _ => False
  end.

(** The evaluator object that [HandEvaluator(hand)] builds. *)
Definition evaluator_of (hand : list Card.t) : HandEvaluator.t :=
  match HandEvaluator.init hand with
  | Return self => self
  | Raise _ => HandEvaluator.make hand None [] [] [] []
  end.

(** [self'] is [self] up to [self.cards]. *)
Definition only_cards_change (self self' : HandEvaluator.t) : Prop :=
  self' = HandEvaluator.set_cards self (HandEvaluator.cards self').

(** A window of the straight scan: five different value symbols. *)
Fixpoint distinct (l : list ascii) : bool :=
  match l with
  | [] => true
  | x :: l' => negb (existsb (Ascii.eqb x) l') && distinct l'
  end.

Definition window (sequence : string) : bool :=
  let vs := list_ascii_of_string sequence in
  distinct vs && forallb (fun v => char_in v VALUES) vs && (length vs =? 5)%nat.

(** * Properties *)

(** ** Lists, permutations and the sort *)

Section ListFacts.

Context {A : Type}.

Lemma insert_reverse_perm (lt : A -> A -> bool) (x : A) (l : list A) :
  Permutation (insert_reverse lt x l) (x :: l).
Proof.
  induction l as [|y l IH]; simpl.
  - apply Permutation_refl.
  - destruct (lt x y).
    + rewrite IH. apply perm_swap.
    + apply Permutation_refl.
Qed.

Lemma sort_reverse_perm (lt : A -> A -> bool) (l : list A) :
  Permutation (sort_reverse lt l) l.
Proof.
  induction l as [|x l IH]; simpl.
  - constructor.
  - rewrite insert_reverse_perm. now constructor.
Qed.

Lemma concat_perm (l l' : list (list A)) :
  Permutation l l' -> Permutation (concat l) (concat l').
Proof.
  induction 1; simpl.
  - constructor.
  - now apply Permutation_app_head.
  - rewrite !app_assoc. apply Permutation_app_tail, Permutation_app_comm.
  - etransitivity; eassumption.
Qed.

Lemma filter_split_perm (p : A -> bool) (l : list A) :
  Permutation (filter p l ++ filter (fun x => negb (p x)) l) l.
Proof.
  induction l as [|x l IH]; simpl.
  - constructor.
  - destruct (p x); simpl.
    + now constructor.
    + rewrite <- Permutation_middle. now constructor.
Qed.

(** Dropping the empty lists does not change the concatenation. *)
Lemma concat_filter_nonempty (l : list (list A)) :
  concat (filter (fun x => negb (length x =? 0)%nat) l) = concat l.
Proof.
  induction l as [|x l IH]; simpl.
  - reflexivity.
  - destruct x as [|a x]; simpl.
    + exact IH.
    + now rewrite IH.
Qed.

(** A duplicate-free list of elements of [l] is a part of [l]. *)
Lemma NoDup_incl_part (cs l : list A) :
  NoDup cs -> incl cs l -> exists rest, Permutation (cs ++ rest) l.
Proof.
  revert l. induction cs as [|c cs IH]; intros l Hnd Hincl.
  - exists l. apply Permutation_refl.
  - inversion Hnd as [|? ? Hnotin Hnd']; subst.
    destruct (in_split c l) as (l1 & l2 & ->).
    { apply Hincl. now left. }
    destruct (IH (l1 ++ l2) Hnd') as (rest & Hrest).
    { intros x Hx.
      assert (Hin : In x (l1 ++ c :: l2)) by (apply Hincl; now right).
      apply in_app_or in Hin. apply in_or_app.
      destruct Hin as [Hin|[->|Hin]]; auto. contradiction. }
    exists rest. simpl. rewrite <- Permutation_middle. now constructor.
Qed.

End ListFacts.

Lemma select_parts {A : Type} (field : A -> ascii) (keys : list ascii) (l : list A) :
  NoDup keys ->
  Permutation
    (concat (map (fun k => filter (fun c => Ascii.eqb (field c) k) l) keys))
    (filter (fun c => existsb (Ascii.eqb (field c)) keys) l).
Proof.
  induction keys as [|k keys IH]; intros Hnd; simpl.
  - induction l; simpl; auto.
  - inversion Hnd as [|? ? Hnotin Hnd']; subst.
    rewrite (IH Hnd'). clear IH.
    induction l as [|c l IHl]; simpl.
    + constructor.
    + destruct (Ascii.eqb_spec (field c) k) as [->|Hne]; simpl.
      * assert (Hex : existsb (Ascii.eqb k) keys = false).
        { apply not_true_is_false. intros Hex.
          apply existsb_exists in Hex as (k' & Hin & Heq).
          apply Ascii.eqb_eq in Heq. now subst. }
        rewrite Hex. now constructor.
      * destruct (existsb (Ascii.eqb (field c)) keys); simpl.
        -- rewrite <- Permutation_middle. now constructor.
        -- exact IHl.
Qed.

(** ** Dictionaries *)

Lemma char_in_In (c : ascii) (s : string) :
  char_in c s = true <-> In c (list_ascii_of_string s).
Proof.
  unfold char_in. rewrite existsb_exists. split.
  - intros (d & Hin & Heq). apply Ascii.eqb_eq in Heq. now subst.
  - intros Hin. exists c. split; [assumption | apply Ascii.eqb_refl].
Qed.

Section Dict.

Context {V : Type}.

Lemma dict_get_map (f : ascii -> V) (keys : list ascii) (k : ascii) :
  In k keys -> dict_get k (map (fun k' => (k', f k')) keys) = Return (f k).
Proof.
  induction keys as [|k' keys IH]; simpl; [contradiction|].
  intros Hin. destruct (Ascii.eqb_spec k' k) as [->|Hne]; [reflexivity|].
  destruct Hin as [Heq|Hin]; [contradiction|]. now apply IH.
Qed.

Lemma dict_append_map (f : ascii -> list V) (keys : list ascii) (k : ascii) (x : V) :
  NoDup keys -> In k keys ->
  dict_append k x (map (fun k' => (k', f k')) keys) =
  Return (map (fun k' => (k', if Ascii.eqb k' k then f k' ++ [x] else f k')) keys).
Proof.
  induction keys as [|k' keys IH]; simpl; [contradiction|].
  intros Hnd Hin. inversion Hnd as [|? ? Hnotin Hnd']; subst.
  destruct (Ascii.eqb_spec k' k) as [->|Hne].
  - do 2 f_equal. apply map_ext_in. intros a Ha.
    destruct (Ascii.eqb_spec a k) as [->|_]; [contradiction | reflexivity].
  - destruct Hin as [Heq|Hin]; [contradiction|].
    now rewrite (IH Hnd' Hin).
Qed.

End Dict.

Lemma arrange_loop_map (field : Card.t -> ascii) (keys : list ascii) (l : list Card.t) :
  NoDup keys ->
  Forall (fun c => In (field c) keys) l ->
  forall f : ascii -> list Card.t,
    arrange_loop field l (map (fun k => (k, f k)) keys) =
    Return (map (fun k => (k, f k ++ select field k l)) keys).
Proof.
  intros Hnd. induction l as [|c l IH]; intros Hall f; simpl.
  - f_equal. apply map_ext. intros k. now rewrite app_nil_r.
  - inversion Hall as [|? ? Hc Hall']; subst.
    rewrite (@dict_append_map _ f keys (field c) c Hnd Hc). simpl.
    rewrite (IH Hall'). f_equal. apply map_ext. intros k.
    destruct (Ascii.eqb_spec k (field c)) as [->|Hne].
    + rewrite Ascii.eqb_refl. now rewrite <- app_assoc.
    + destruct (Ascii.eqb_spec (field c) k) as [Heq|_]; [now subst|reflexivity].
Qed.

Lemma NoDup_VALUES : NoDup (list_ascii_of_string VALUES).
Proof.
  simpl. repeat (constructor; [simpl; intuition discriminate|]). constructor.
Qed.

Lemma NoDup_SUITS : NoDup (list_ascii_of_string SUITS).
Proof.
  simpl. repeat (constructor; [simpl; intuition discriminate|]). constructor.
Qed.

Lemma arrange_by_value_select (hand : list Card.t) :
  Forall valid_card hand ->
  arrange_by_value hand =
  Return (map (fun v => (v, select Card.value v hand)) (list_ascii_of_string VALUES)).
Proof.
  intros Hvalid. unfold arrange_by_value.
  apply (@arrange_loop_map Card.value _ hand NoDup_VALUES) with (f := fun _ => []).
  eapply Forall_impl; [|exact Hvalid].
  intros c [Hv _]. now apply char_in_In.
Qed.

Lemma arrange_by_suit_select (l : list Card.t) :
  Forall valid_card l ->
  arrange_by_suit l =
  Return (map (fun s => (s, select Card.suit s l)) (list_ascii_of_string SUITS)).
Proof.
  intros Hvalid. unfold arrange_by_suit.
  apply (@arrange_loop_map Card.suit _ l NoDup_SUITS) with (f := fun _ => []).
  eapply Forall_impl; [|exact Hvalid].
  intros c [_ Hs]. now apply char_in_In.
Qed.

(** ** The clusters of [group_by_same_value] *)

Lemma filter_all {A : Type} (p : A -> bool) (l : list A) :
  Forall (fun x => p x = true) l -> filter p l = l.
Proof.
  induction 1 as [|x l Hx _ IH]; simpl; [reflexivity|].
  now rewrite Hx, IH.
Qed.

Lemma select_all_values (hand : list Card.t) :
  Forall valid_card hand ->
  Permutation
    (concat (map (fun v => select Card.value v hand) (list_ascii_of_string VALUES)))
    hand.
Proof.
  intros Hvalid. unfold select.
  rewrite (select_parts Card.value hand NoDup_VALUES).
  rewrite filter_all; [apply Permutation_refl|].
  eapply Forall_impl; [|exact Hvalid]. intros c [Hv _]. exact Hv.
Qed.

(** The clusters are the non-empty selections by value, one per value, and
    together they hold the cards of the hand. *)
Lemma groups_shape (hand : list Card.t) :
  Forall valid_card hand ->
  exists vs : list ascii,
    group_by_same_value
      (map (fun v => (v, select Card.value v hand)) (list_ascii_of_string VALUES))
    = map (fun v => select Card.value v hand) vs
    /\ NoDup vs
    /\ (forall v, In v vs -> select Card.value v hand <> [])
    /\ Permutation (concat (map (fun v => select Card.value v hand) vs)) hand.
Proof.
  intros Hvalid. unfold group_by_same_value.
  set (g := fun v : ascii => (v, select Card.value v hand)).
  destruct (Permutation_map_inv g (list_ascii_of_string VALUES)
              (sort_reverse_perm item_lt (map g (list_ascii_of_string VALUES))))
    as (vs' & Hsorted & Hperm).
  rewrite Hsorted, filter_map_swap, map_map. simpl.
  set (p := fun v : ascii => negb (length (select Card.value v hand) =? 0)%nat).
  exists (filter p vs'). repeat split.
  - apply NoDup_filter. eapply Permutation_NoDup; [exact Hperm | exact NoDup_VALUES].
  - intros v Hv Hnil. apply filter_In in Hv as [_ Hp].
    unfold p in Hp. now rewrite Hnil in Hp.
  - etransitivity; [|apply (select_all_values Hvalid)].
    symmetry. etransitivity.
    { apply concat_perm, Permutation_map, Hperm. }
    rewrite <- (concat_filter_nonempty (map (fun v => select Card.value v hand) vs')).
    rewrite filter_map_swap. apply Permutation_refl.
Qed.

(** ** The extractors *)

Lemma distinct_NoDup (l : list ascii) : distinct l = true -> NoDup l.
Proof.
  induction l as [|x l IH]; simpl; intros H; constructor.
  - apply andb_prop in H as [H _]. intros Hin.
    assert (Hex : existsb (Ascii.eqb x) l = true).
    { apply existsb_exists. exists x. split; [assumption | apply Ascii.eqb_refl]. }
    now rewrite Hex in H.
  - apply andb_prop in H as [_ H]. now apply IH.
Qed.

Lemma views_set_cards (hand : list Card.t) (self : HandEvaluator.t) cs :
  views_of hand self -> views_of hand (HandEvaluator.set_cards self cs).
Proof. intros [H1 H2 H3 H4]. now constructor. Qed.

Lemma selected_five (hand cs : list Card.t) :
  length cs = 5 -> part_of cs hand -> selected hand cs.
Proof.
  intros Hlen [rest Hperm]. split; [|now exists rest].
  apply Permutation_length in Hperm. rewrite length_app in Hperm. lia.
Qed.

Lemma card_in_In (c : Card.t) (cs : list Card.t) : In c cs -> card_in c cs = true.
Proof.
  intros Hin. apply existsb_exists. exists c. split; [assumption|].
  simpl. apply Nat.eqb_refl.
Qed.

Lemma card_in_oid (c : Card.t) (cs : list Card.t) :
  card_in c cs = true -> exists d, In d cs /\ Card.oid d = Card.oid c.
Proof.
  intros H. apply existsb_exists in H as (d & Hd & Heq).
  exists d. split; [assumption|]. now apply Nat.eqb_eq.
Qed.

(** The loop of [complete_hand] adds nothing when every card is selected
    already, and stops at the first new card when four are selected. *)
Lemma complete_loop_none (src cs : list Card.t) :
  (forall c, In c src -> card_in c cs = true) ->
  HandEvaluator.complete_loop src cs = cs.
Proof.
  induction src as [|c src IH]; simpl; intros Hall; [reflexivity|].
  rewrite (Hall c) by now left. simpl. apply IH. intros d Hd. apply Hall. now right.
Qed.

Lemma complete_loop_one (src cs : list Card.t) :
  length cs = 4 ->
  (exists c, In c src /\ card_in c cs = false) ->
  exists c, HandEvaluator.complete_loop src cs = cs ++ [c]
            /\ In c src /\ card_in c cs = false.
Proof.
  intros Hlen. induction src as [|c src IH]; simpl; intros (d & Hd & Hnew).
  - contradiction.
  - destruct (card_in c cs) eqn:Hc; simpl.
    + destruct Hd as [->|Hd]; [congruence|].
      destruct IH as (c' & Heq & Hin & Hc'); [now exists d|].
      exists c'. auto.
    + exists c. rewrite length_app, Hlen. simpl. auto.
Qed.

(** One step of a method: the binds and the list accesses whose outcome is
    known. *)
Ltac run :=
  cbn [bind list_index nth_error map concat length
       HandEvaluator.cards HandEvaluator.set_cards HandEvaluator.sorted_by_value
       HandEvaluator.cards_list HandEvaluator.complete_hand extractor_ok].

Ltac run_in H1 H2 :=
  run; cbn [map concat length app] in H1, H2.

Section Extractors.

Variable hand : list Card.t.
Hypothesis Hvalid : Forall valid_card hand.
Hypothesis Hone : one_object_one_card hand.

Let by_value_of := fun v : ascii => select Card.value v hand.

Lemma groups_of_views (self : HandEvaluator.t) :
  views_of hand self ->
  exists vs : list ascii,
    HandEvaluator.groups self = map by_value_of vs
    /\ NoDup vs
    /\ (forall v, In v vs -> by_value_of v <> [])
    /\ Permutation (concat (map by_value_of vs)) hand.
Proof.
  intros [_ _ Hbv Hg]. rewrite Hg, Hbv. apply (groups_shape Hvalid).
Qed.

(** *** extract_straight *)

Lemma by_value_lookup (self : HandEvaluator.t) :
  views_of hand self ->
  forall v, char_in v VALUES = true ->
            dict_get v (HandEvaluator.by_value self) = Return (by_value_of v).
Proof.
  intros Hviews v Hv. rewrite (views_by_value Hviews).
  apply (dict_get_map by_value_of). now apply char_in_In.
Qed.

Lemma all_present_spec (bv : dict (list Card.t)) (vs : list ascii) :
  (forall v, char_in v VALUES = true -> dict_get v bv = Return (by_value_of v)) ->
  forallb (fun v => char_in v VALUES) vs = true ->
  HandEvaluator.all_present bv vs =
  Return (forallb (fun v => 0 <? length (by_value_of v))%nat vs).
Proof.
  intros Hbv. induction vs as [|v vs IH]; simpl; intros Hin; [reflexivity|].
  apply andb_prop in Hin as [Hv Hvs].
  rewrite (Hbv v Hv). simpl.
  destruct (0 <? length (by_value_of v))%nat; simpl; auto.
Qed.

Lemma first_of_each_spec (bv : dict (list Card.t)) (vs : list ascii) :
  (forall v, char_in v VALUES = true -> dict_get v bv = Return (by_value_of v)) ->
  forallb (fun v => char_in v VALUES) vs = true ->
  forallb (fun v => 0 <? length (by_value_of v))%nat vs = true ->
  exists cs, HandEvaluator.first_of_each bv vs = Return cs
             /\ map Card.value cs = vs /\ incl cs hand.
Proof.
  intros Hbv. unfold HandEvaluator.first_of_each.
  induction vs as [|v vs IH]; simpl; intros Hin Hall.
  - exists []. repeat split. intros c [].
  - apply andb_prop in Hin as [Hv Hvs]. apply andb_prop in Hall as [Hp Hps].
    destruct (IH Hvs Hps) as (cs & -> & Hmap & Hincl).
    rewrite (Hbv v Hv). simpl.
    assert (Hc : In (hd (Card.make 0 v v) (by_value_of v)) hand
                 /\ Card.value (hd (Card.make 0 v v) (by_value_of v)) = v
                 /\ list_index (by_value_of v) 0
                    = Return (hd (Card.make 0 v v) (by_value_of v))).
    { destruct (by_value_of v) as [|c l] eqn:Hsel; [discriminate|].
      assert (Hcin : In c (by_value_of v)) by (rewrite Hsel; now left).
      apply filter_In in Hcin as [Hcin Hcv]. apply Ascii.eqb_eq in Hcv.
      simpl. auto. }
    destruct Hc as (Hc1 & Hc2 & ->). simpl.
    eexists. split; [reflexivity|]. split.
    + simpl. now rewrite Hc2, Hmap.
    + intros c [<-|Hc]; auto.
Qed.

Lemma straight_loop_ok (self : HandEvaluator.t) (seqs : list string) :
  views_of hand self ->
  forallb window seqs = true ->
  extractor_ok hand (HandEvaluator.straight_loop self seqs).
Proof.
  intros Hviews. induction seqs as [|sequence seqs IH]; simpl; intros Hw.
  - split; [assumption | discriminate].
  - apply andb_prop in Hw as [Hw Hws]. unfold window in Hw.
    apply andb_prop in Hw as [Hw Hlen]. apply andb_prop in Hw as [Hdist Hin].
    rewrite (@all_present_spec _ _ (by_value_lookup Hviews) Hin). simpl.
    destruct (forallb (fun v => (0 <? length (by_value_of v))%nat)
              (list_ascii_of_string sequence)) eqn:Hall; [|now apply IH].
    destruct (@first_of_each_spec _ _ (by_value_lookup Hviews) Hin Hall)
      as (cs & -> & Hmap & Hincl). simpl.
    split; [now apply views_set_cards|]. intros _. exists cs. split; [reflexivity|].
    assert (Hnd : NoDup cs).
    { apply (NoDup_map_inv Card.value). rewrite Hmap. now apply distinct_NoDup. }
    apply selected_five.
    + rewrite <- (length_map Card.value), Hmap. now apply Nat.eqb_eq.
    + now apply NoDup_incl_part.
Qed.

Lemma sequences_windows : forallb window HandEvaluator.sequences = true.
Proof. reflexivity. Qed.

Lemma extract_straight_ok (self : HandEvaluator.t) :
  views_of hand self -> extractor_ok hand (HandEvaluator.extract_straight self).
Proof.
  intros Hviews. apply (straight_loop_ok _ Hviews sequences_windows).
Qed.

Lemma extract_straight_flush_ok (self : HandEvaluator.t) :
  views_of hand self -> extractor_ok hand (HandEvaluator.extract_straight_flush self).
Proof.
  intros Hviews. unfold HandEvaluator.extract_straight_flush.
  pose proof (extract_straight_ok Hviews) as Hs.
  destruct (HandEvaluator.extract_straight self) as [[found self']|e]; simpl in *;
    [|assumption].
  destruct Hs as [Hviews' Hcs]. destruct found; simpl.
  - destruct (Hcs eq_refl) as (cs & Hcards & Hsel).
    unfold HandEvaluator.cards_list. rewrite Hcards. simpl.
    destruct (all_same_suit cs); simpl.
    + split; [assumption|]. intros _. now exists cs.
    + split; [now apply views_set_cards | discriminate].
  - split; [now apply views_set_cards | discriminate].
Qed.

Lemma extract_royal_flush_ok (self : HandEvaluator.t) :
  views_of hand self -> extractor_ok hand (HandEvaluator.extract_royal_flush self).
Proof.
  intros Hviews. unfold HandEvaluator.extract_royal_flush.
  pose proof (extract_straight_flush_ok Hviews) as Hs.
  destruct (HandEvaluator.extract_straight_flush self) as [[found self']|e];
    simpl in *; [|assumption].
  destruct Hs as [Hviews' Hcs]. destruct found; simpl.
  - destruct (Hcs eq_refl) as (cs & Hcards & Hsel).
    unfold HandEvaluator.cards_list. rewrite Hcards. simpl.
    unfold list_index.
    destruct (nth_error cs (length cs - 1)) as [c|] eqn:Hnth; simpl.
    + destruct (Ascii.eqb (Card.value c) "T"); simpl.
      * split; [assumption|]. intros _. now exists cs.
      * split; [now apply views_set_cards | discriminate].
    + split; [reflexivity|]. apply nth_error_None in Hnth.
      destruct Hsel as [Hlen _]. lia.
  - split; [now apply views_set_cards | discriminate].
Qed.

(** *** extract_n_of_a_kind: the comparison of a card with [n] never holds *)

Lemma extract_n_of_a_kind_ok (self : HandEvaluator.t) (n : Z) :
  views_of hand self -> extractor_ok hand (HandEvaluator.extract_n_of_a_kind self n).
Proof.
  intros Hviews. unfold HandEvaluator.extract_n_of_a_kind.
  destruct (groups_of_views Hviews) as (vs & -> & _ & Hne & Hperm).
  destruct vs as [|v vs]; simpl.
  - split; [reflexivity|]. apply Permutation_length in Hperm. simpl in Hperm. lia.
  - destruct (by_value_of v) as [|c l] eqn:Hsel.
    + exfalso. apply (Hne v); [now left | assumption].
    + simpl. split; [assumption | discriminate].
Qed.

(** *** extract_full_house *)

Lemma extract_full_house_ok (self : HandEvaluator.t) :
  views_of hand self -> extractor_ok hand (HandEvaluator.extract_full_house self).
Proof.
  intros Hviews. unfold HandEvaluator.extract_full_house.
  destruct (groups_of_views Hviews) as (vs & -> & _ & _ & Hperm).
  pose proof (Permutation_length Hperm) as Hlen.
  destruct vs as [|v0 vs]; run_in Hperm Hlen.
  { split; [reflexivity | lia]. }
  rewrite length_app in Hlen.
  destruct (length (by_value_of v0) =? 3)%nat eqn:H3; run;
    [|split; [assumption | discriminate]].
  apply Nat.eqb_eq in H3.
  destruct vs as [|v1 vs]; run_in Hperm Hlen.
  { split; [reflexivity | lia]. }
  rewrite length_app in Hlen.
  destruct (2 <=? length (by_value_of v1))%nat eqn:H2; run;
    [|split; [assumption | discriminate]].
  apply Nat.leb_le in H2.
  split; [now apply views_set_cards|]. intros _.
  eexists. split; [reflexivity|]. apply selected_five.
  - rewrite length_app, length_firstn. lia.
  - exists (skipn 2 (by_value_of v1) ++ concat (map by_value_of vs)).
    rewrite <- app_assoc, (app_assoc (firstn 2 _)), firstn_skipn.
    exact Hperm.
Qed.

(** *** extract_flush *)

Lemma flush_keys (fl : list (list Card.t)) :
  (forall x, In x fl -> length x = 5) ->
  exists keyed,
    mapM (fun x => c <- list_index x 0 ;; Return (Card.sort_key c, x)) fl
    = Return keyed
    /\ map snd keyed = fl.
Proof.
  induction fl as [|x fl IH]; intros Hlen.
  - exists []. split; reflexivity.
  - destruct IH as (keyed & Hk & Hsnd); [intros y Hy; apply Hlen; now right|].
    assert (Hx : length x = 5) by (apply Hlen; now left).
    destruct x as [|c x]; [discriminate|].
    exists ((Card.sort_key c, c :: x) :: keyed).
    cbn [mapM]. rewrite Hk. run. split; [reflexivity|].
    cbn [map snd]. now rewrite Hsnd.
Qed.

Lemma extract_flush_ok (self : HandEvaluator.t) :
  views_of hand self -> extractor_ok hand (HandEvaluator.extract_flush self).
Proof.
  intros Hviews. unfold HandEvaluator.extract_flush.
  set (fl := filter (fun lst => (length lst =? 5)%nat)
                    (map snd (HandEvaluator.by_suit self))).
  assert (Hfl : forall x, In x fl -> length x = 5 /\ part_of x hand).
  { intros x Hx. apply filter_In in Hx as [Hx Hlen].
    rewrite (views_by_suit Hviews), map_map in Hx.
    apply in_map_iff in Hx as (s & <- & _). cbn [snd] in *.
    split; [now apply Nat.eqb_eq|].
    exists (filter (fun c => negb (Ascii.eqb (Card.suit c) s)) (sort_by_value hand)).
    unfold select. rewrite filter_split_perm. apply sort_reverse_perm. }
  clearbody fl. destruct fl as [|x0 fl'].
  { split; [assumption | discriminate]. }
  destruct (@flush_keys (x0 :: fl')) as (keyed & -> & Hsnd).
  { intros x Hx. now apply Hfl. }
  run.
  assert (Hperm : Permutation
                    (map snd (sort_reverse (fun a b => (fst a <? fst b)%Z) keyed))
                    (x0 :: fl')).
  { rewrite <- Hsnd. apply Permutation_map, sort_reverse_perm. }
  destruct (map snd (sort_reverse (fun a b => (fst a <? fst b)%Z) keyed))
    as [|cs rest].
  { apply Permutation_nil in Hperm. discriminate. }
  run. split; [now apply views_set_cards|]. intros _.
  exists cs. split; [reflexivity|].
  destruct (Hfl cs) as [Hlen Hpart].
  { apply (Permutation_in _ Hperm). now left. }
  now apply selected_five.
Qed.

(** *** extract_two_pairs *)

Lemma by_value_of_In (v : ascii) (c : Card.t) :
  In c (by_value_of v) -> In c hand /\ Card.value c = v.
Proof.
  intros Hc. apply filter_In in Hc as [Hc Hv]. apply Ascii.eqb_eq in Hv. auto.
Qed.

Lemma clusters_In (vs : list ascii) (c : Card.t) :
  In c (concat (map by_value_of vs)) -> In c hand /\ In (Card.value c) vs.
Proof.
  intros Hc. apply in_concat in Hc as (g & Hg & Hc).
  apply in_map_iff in Hg as (v & <- & Hv).
  apply by_value_of_In in Hc as [Hc <-]. auto.
Qed.

(** A card of a later cluster is not among the cards of the first two. *)
Lemma later_cluster_new (v0 v1 : ascii) (vs : list ascii) (r : Card.t) :
  NoDup (v0 :: v1 :: vs) ->
  In r (concat (map by_value_of vs)) ->
  card_in r (by_value_of v0 ++ by_value_of v1) = false.
Proof.
  intros Hnd Hr. apply clusters_In in Hr as [Hr Hrv].
  apply not_true_is_false. intros Hin.
  apply card_in_oid in Hin as (d & Hd & Hoid).
  assert (Hdv : In d hand /\ (Card.value d = v0 \/ Card.value d = v1)).
  { apply in_app_or in Hd as [Hd|Hd]; apply by_value_of_In in Hd as [Hd Hv]; auto. }
  destruct Hdv as [Hdh Hdv]. rewrite (Hone d r Hdh Hr Hoid) in Hdv.
  inversion Hnd as [|? ? Hn0 Hnd']; subst.
  inversion Hnd' as [|? ? Hn1 _]; subst.
  destruct Hdv as [<-|<-]; [apply Hn0; now right | now apply Hn1].
Qed.

Lemma two_pairs_completed (v0 v1 : ascii) (vs : list ascii) :
  NoDup (v0 :: v1 :: vs) ->
  length (by_value_of v0) = 2 ->
  length (by_value_of v1) = 2 ->
  Permutation (by_value_of v0 ++ by_value_of v1 ++ concat (map by_value_of vs)) hand ->
  selected hand
    (HandEvaluator.complete_loop (sort_by_value hand)
                                 (by_value_of v0 ++ by_value_of v1)).
Proof.
  intros Hnd H0 H1 Hperm. rewrite app_assoc in Hperm.
  set (cs := by_value_of v0 ++ by_value_of v1) in *.
  assert (Hcs : length cs = 4) by (unfold cs; rewrite length_app; lia).
  assert (Hsorted : forall c, In c (sort_by_value hand) -> In c (cs ++ concat (map by_value_of vs))).
  { intros c Hc. apply (Permutation_in _ (Permutation_sym Hperm)).
    apply (Permutation_in _ (sort_reverse_perm _ hand) Hc). }
  destruct (concat (map by_value_of vs)) as [|r rest] eqn:Hrest.
  - rewrite complete_loop_none.
    + split; [|now exists []].
      apply Permutation_length in Hperm. rewrite app_nil_r in Hperm. lia.
    + intros c Hc. apply card_in_In. specialize (Hsorted c Hc).
      now rewrite app_nil_r in Hsorted.
  - destruct (@complete_loop_one (sort_by_value hand) cs Hcs) as (c & -> & Hc & Hnew).
    { exists r. split.
      - apply (Permutation_in _ (Permutation_sym (sort_reverse_perm _ hand))).
        apply (Permutation_in _ Hperm). apply in_or_app. right. now left.
      - apply (@later_cluster_new v0 v1 vs r Hnd). rewrite Hrest. now left. }
    apply selected_five; [rewrite length_app; simpl; lia|].
    specialize (Hsorted c Hc). apply in_app_or in Hsorted as [Hin|Hin].
    { apply card_in_In in Hin. congruence. }
    apply in_split in Hin as (l1 & l2 & Heq). exists (l1 ++ l2).
    rewrite <- Hperm, Heq, <- app_assoc. apply Permutation_app_head.
    simpl. apply Permutation_middle.
Qed.

Lemma extract_two_pairs_ok (self : HandEvaluator.t) :
  views_of hand self -> extractor_ok hand (HandEvaluator.extract_two_pairs self).
Proof.
  intros Hviews. unfold HandEvaluator.extract_two_pairs.
  destruct (groups_of_views Hviews) as (vs & -> & Hnd & _ & Hperm).
  pose proof (Permutation_length Hperm) as Hlen.
  destruct vs as [|v0 vs]; run_in Hperm Hlen.
  { split; [reflexivity | lia]. }
  rewrite length_app in Hlen.
  destruct (length (by_value_of v0) =? 2)%nat eqn:H0; run;
    [|split; [assumption | discriminate]].
  apply Nat.eqb_eq in H0.
  destruct vs as [|v1 vs]; run_in Hperm Hlen.
  { split; [reflexivity | lia]. }
  destruct (length (by_value_of v1) =? 2)%nat eqn:H1; run;
    [|split; [assumption | discriminate]].
  apply Nat.eqb_eq in H1.
  split; [now do 2 apply views_set_cards|]. intros _.
  eexists. split; [reflexivity|].
  rewrite (views_sorted Hviews). now apply two_pairs_completed with (vs := vs).
Qed.

(** *** extract_high_card *)

Lemma extract_high_card_ok (self : HandEvaluator.t) :
  views_of hand self -> extractor_ok hand (HandEvaluator.extract_high_card self).
Proof.
  intros Hviews. unfold HandEvaluator.extract_high_card. run.
  split; [now apply views_set_cards|]. intros _.
  eexists. split; [reflexivity|]. rewrite (views_sorted Hviews).
  pose proof (sort_reverse_perm
                (fun c d => (Card.sort_key c <? Card.sort_key d)%Z) hand) as Hperm.
  fold (sort_by_value hand) in Hperm. split.
  - rewrite length_firstn, (Permutation_length Hperm). reflexivity.
  - exists (skipn 5 (sort_by_value hand)). now rewrite firstn_skipn.
Qed.

(** *** the cascade *)

Lemma extract_rank_ok (self : HandEvaluator.t) (rank : Rank) :
  views_of hand self -> extractor_ok hand (HandEvaluator.extract_rank self rank).
Proof.
  intros Hviews. destruct rank; cbn [HandEvaluator.extract_rank].
  - now apply extract_royal_flush_ok.
  - now apply extract_straight_flush_ok.
  - now apply extract_n_of_a_kind_ok.
  - now apply extract_full_house_ok.
  - now apply extract_flush_ok.
  - now apply extract_straight_ok.
  - now apply extract_n_of_a_kind_ok.
  - now apply extract_two_pairs_ok.
  - now apply extract_n_of_a_kind_ok.
  - now apply extract_high_card_ok.
Qed.

Lemma evaluate_loop_ok (ranks : list Rank) :
  In high_card ranks ->
  forall self : HandEvaluator.t,
    views_of hand self ->
    match HandEvaluator.evaluate_loop self ranks with
    | Return (r, self') => views_of hand self' /\ evaluate_ok hand r
    | Raise e => e = IndexError /\ length hand < 5
    end.
Proof.
  induction ranks as [|rank ranks IH]; intros Hin self Hviews; [contradiction|].
  cbn [HandEvaluator.evaluate_loop].
  pose proof (extract_rank_ok rank Hviews) as Hok.
  destruct (HandEvaluator.extract_rank self rank) as [[found self']|e] eqn:Hrun;
    cbn [bind extractor_ok] in *; [|assumption].
  destruct Hok as [Hviews' Hcs]. destruct found.
  - destruct (Hcs eq_refl) as (cs & -> & Hsel). now split.
  - apply IH; [|assumption].
    destruct Hin as [->|Hin]; [|assumption].
    cbv [HandEvaluator.extract_rank HandEvaluator.extract_high_card] in Hrun.
    discriminate Hrun.
Qed.

(** [HandEvaluator(hand)] followed by [evaluate()]. *)
Lemma evaluate_hand_ok :
  match evaluate_hand hand with
  | Return r => evaluate_ok hand r
  | Raise e => e = IndexError /\ length hand < 5
  end.
Proof.
  unfold evaluate_hand, HandEvaluator.init.
  rewrite arrange_by_suit_select, (arrange_by_value_select Hvalid).
  2:{ eapply Permutation_Forall; [|exact Hvalid].
      apply Permutation_sym, sort_reverse_perm. }
  cbn [bind].
  match goal with
  | |- context [HandEvaluator.evaluate ?s] =>
      assert (Hviews : views_of hand s) by (constructor; reflexivity);
      generalize dependent s
  end.
  intros self0 Hviews0. unfold HandEvaluator.evaluate.
  pose proof (@evaluate_loop_ok RANKS) as Hloop.
  assert (Hin : In high_card RANKS) by (unfold RANKS; simpl; tauto).
  pose proof (Hloop Hin self0 Hviews0) as Hfirst.
  destruct (HandEvaluator.evaluate_loop self0 RANKS) as [[r1 self1]|e];
    cbn [bind]; [|assumption].
  destruct Hfirst as [Hviews1 _].
  pose proof (Hloop Hin self1 Hviews1) as Hsecond.
  destruct (HandEvaluator.evaluate_loop self1 RANKS) as [[r2 self2]|e];
    cbn [bind]; [|assumption].
  now destruct Hsecond.
Qed.

End Extractors.

(** ** Hands built by the module satisfy the hypotheses *)

Lemma Card_init_valid (addr : nat) (code : string) (c : Card.t) :
  Card.init addr code = Return c -> valid_card c /\ Card.oid c = addr.
Proof.
  unfold Card.init.
  destruct (str_index code 0) as [v|]; cbn [bind]; [|discriminate].
  destruct (str_index code 1) as [s|]; cbn [bind]; [|discriminate].
  destruct (char_in v VALUES) eqn:Hv; cbn [negb]; [|discriminate].
  destruct (char_in s SUITS) eqn:Hs; cbn [negb]; [|discriminate].
  intros [= <-]. repeat split; assumption.
Qed.

Lemma cards_of_codes_valid (codes : list string) :
  forall (addr : nat) (hand : list Card.t),
    cards_of_codes addr codes = Return hand ->
    Forall valid_card hand /\ map Card.oid hand = seq addr (length codes).
Proof.
  unfold cards_of_codes.
  induction codes as [|code codes IH]; intros addr hand; cbn [length seq combine mapM].
  - intros [= <-]. split; [constructor | reflexivity].
  - destruct (Card.init addr code) as [c|] eqn:Hc; cbn [bind]; [|discriminate].
    destruct (mapM _ (combine (seq (S addr) (length codes)) codes)) as [cs|] eqn:Hcs;
      cbn [bind]; [|discriminate].
    intros [= <-]. destruct (IH _ _ Hcs) as [Hvalid Hoid].
    destruct (Card_init_valid _ _ Hc) as [Hcv Hco].
    split; [now constructor|]. cbn [map]. now rewrite Hco, Hoid.
Qed.

Lemma distinct_objects (hand : list Card.t) :
  NoDup (map Card.oid hand) -> one_object_one_card hand.
Proof.
  induction hand as [|c hand IH]; intros Hnd x y Hx Hy Hoid; [contradiction|].
  cbn [map] in Hnd. inversion Hnd as [|? ? Hnotin Hnd']; subst.
  destruct Hx as [->|Hx], Hy as [->|Hy].
  - reflexivity.
  - exfalso. apply Hnotin. rewrite Hoid. now apply in_map.
  - exfalso. apply Hnotin. rewrite <- Hoid. now apply in_map.
  - now apply IH.
Qed.

Lemma cards_of_codes_objects (addr : nat) (codes : list string) (hand : list Card.t) :
  cards_of_codes addr codes = Return hand -> one_object_one_card hand.
Proof.
  intros H. apply distinct_objects.
  destruct (cards_of_codes_valid _ _ H) as [_ ->]. apply seq_NoDup.
Qed.

(** ** The comparison in [find_winners] *)

(** A key is a pair of an int and a list, an entry of [hands_ranks] a pair of
    a key and an int: they are never equal. *)
Lemma key_never_equals_entry (key : Z * list Z) (entry : (Z * list Z) * nat) :
  py_eq (py_key key) (py_entry entry) = false.
Proof. reflexivity. Qed.

Lemma find_winners_one_winner (hands : list (list Card.t)) (winners : list nat) :
  find_winners hands = Return winners -> exists idx, winners = [idx].
Proof.
  unfold find_winners.
  destruct (mapM _ (combine (seq 0 (length hands)) hands)) as [hands_ranks|];
    cbn [bind]; [|discriminate].
  destruct (sort_reverse entry_lt hands_ranks) as [|first rest];
    cbn [bind list_index nth_error skipn]; [discriminate|].
  intros [= <-]. exists (snd first).
  destruct rest as [|[key idx] rest]; cbn [winners_loop]; [reflexivity|].
  now rewrite key_never_equals_entry.
Qed.

(** ** Two extractors that miss their rank *)

(** Whatever the hand and [n], [extract_n_of_a_kind] does not find its rank. *)
Lemma extract_n_of_a_kind_never_found (self self' : HandEvaluator.t) (n : Z) (found : bool) :
  HandEvaluator.extract_n_of_a_kind self n = Return (found, self') -> found = false.
Proof.
  unfold HandEvaluator.extract_n_of_a_kind.
  destruct (list_index (HandEvaluator.groups self) 0) as [g|]; cbn [bind]; [|discriminate].
  destruct (list_index g 0) as [c|]; cbn [bind]; [|discriminate].
  cbn [py_ne py_eq negb]. now intros [= <- _].
Qed.

(** [extract_flush] fails as soon as no suit group has exactly five cards. *)
Lemma extract_flush_needs_exactly_five (self : HandEvaluator.t) :
  Forall (fun item => length (snd item) <> 5) (HandEvaluator.by_suit self) ->
  HandEvaluator.extract_flush self = Return (false, self).
Proof.
  intros Hall. unfold HandEvaluator.extract_flush.
  replace (filter (fun lst => (length lst =? 5)%nat) (map snd (HandEvaluator.by_suit self)))
    with (@nil (list Card.t)); [reflexivity|].
  induction Hall as [|item items Hitem _ IH]; cbn [map filter]; [reflexivity|].
  apply Nat.eqb_neq in Hitem. now rewrite Hitem.
Qed.

(** * The claims *)

(** C1 (the code departs from the claim).  On the two tied High Card hands
    [AS KS QS JD 2C 3D 4H] and [AH KH QH JD 2C 3D 4H], [find_winners]
    returns the single index 1 and not the two indices 0 and 1: the loop
    compares each key with the whole first entry [(key, idx)]. *)
Theorem find_winners_tie_reports_one_index :
  find_winners_codes [tied_high_card_0; tied_high_card_1] = Return [1%nat].
Proof. vm_compute. reflexivity. Qed.

(** C2 (the code departs from the claim).  The windows scanned are cut out
    of [AQKJT98765432A], with Q and K exchanged: the third window is
    K,J,T,9,8 and the window Q,J,T,9,8 is missing.  So [KC JD TH 9S 8C 3D 2H]
    evaluates to a Straight and [QC JD TH 9S 8C 3D 2H] to a High Card. *)
Theorem straight_windows_exchange_queen_and_king :
  HandEvaluator.sequences =
    ["AQKJT"; "QKJT9"; "KJT98"; "JT987"; "T9876";
     "98765"; "87654"; "76543"; "65432"; "5432A"]
  /\ evaluate_codes king_jack_gap = Return (straight, ["KC"; "JD"; "TH"; "9S"; "8C"])
  /\ evaluate_codes queen_high_run = Return (high_card, ["QC"; "JD"; "TH"; "9S"; "8C"]).
Proof. repeat split; vm_compute; reflexivity. Qed.

(** C3 (the code departs from the claim).  [4C 4D 4H 4S 9C 9D 9H] evaluates
    to High Card with the cards 9C 9D 9H 4C 4D: [extract_n_of_a_kind]
    compares a card with the number 4 and so never finds Four of a Kind. *)
Theorem four_of_a_kind_is_never_found :
  evaluate_codes four_fours = Return (high_card, ["9C"; "9D"; "9H"; "4C"; "4D"]).
Proof. vm_compute. reflexivity. Qed.

(** C4 (the code departs from the claim).  Clusters of one size are ordered
    by the character code of the value symbol, in which T is above A: for
    the cards AS and TC the cluster of the Ten comes before the cluster of
    the Ace. *)
Theorem clusters_put_ten_before_ace :
  clusters_codes ["AS"; "TC"] = Return [["TC"]; ["AS"]].
Proof. vm_compute. reflexivity. Qed.

(** C5 (the code departs from the claim).  With six spades in
    [2S 4S 6S 8S TS QS 3D] no suit group has exactly five cards:
    [extract_flush] fails and the hand evaluates to High Card. *)
Theorem six_cards_of_a_suit_are_no_flush :
  flush_found six_spades = Return false
  /\ evaluate_codes six_spades = Return (high_card, ["QS"; "TS"; "8S"; "6S"; "4S"]).
Proof. split; vm_compute; reflexivity. Qed.

(** The hand [2C 7D 9H TC QS JD KH] does not evaluate to High Card. *)
Lemma king_high_run_not_high_card :
  ~ exists cs, evaluate_codes king_high_run = Return (high_card, cs).
Proof. intros [cs H]. vm_compute in H. discriminate H. Qed.

(** C6 (amended).  The hand [2C 7D 9H TC QS JD KH] holds K, Q, J, T, 9 and
    evaluates to Straight; the cards selected are KH, QS, JD, TC and 9H. *)
Theorem king_high_run_is_a_straight :
  exists cs, evaluate_codes king_high_run = Return (straight, cs)
             /\ Permutation cs ["KH"; "QS"; "JD"; "TC"; "9H"].
Proof.
  exists ["QS"; "KH"; "JD"; "TC"; "9H"]. split.
  - vm_compute. reflexivity.
  - apply perm_swap.
Qed.

(** C7.  A hand of at least five cards evaluates to a rank together with
    exactly five cards, and these five are taken out of the hand: with the
    cards left over they make up the hand again, so no card is selected
    twice and none is invented. *)
Theorem evaluate_selects_five_cards_of_the_hand (hand : list Card.t) :
  Forall valid_card hand ->
  one_object_one_card hand ->
  5 <= length hand ->
  exists rank cs rest,
    evaluate_hand hand = Return (Some (rank, Some cs))
    /\ length cs = 5
    /\ Permutation (cs ++ rest) hand.
Proof.
  intros Hvalid Hone Hlen.
  pose proof (evaluate_hand_ok Hvalid Hone) as Hok.
  destruct (evaluate_hand hand) as [[[rank [cs|]]|]|e]; cbn [evaluate_ok] in Hok;
    try contradiction.
  - destruct Hok as [Hfive [rest Hperm]].
    exists rank, cs, rest. split; [reflexivity|]. split; [lia | assumption].
  - destruct Hok as [_ Hshort]. lia.
Qed.

Lemma full_house_hand_selects_five :
  exists rank cs rest,
    evaluate_hand full_house_hand = Return (Some (rank, Some cs))
    /\ length cs = 5
    /\ Permutation (cs ++ rest) full_house_hand.
Proof.
  apply evaluate_selects_five_cards_of_the_hand.
  - repeat constructor.
  - apply distinct_objects. simpl.
    repeat (constructor; [simpl; intuition discriminate|]). constructor.
  - simpl. lia.
Defined.

(** A hand of two cards is evaluated, not rejected. *)
Lemma two_card_hand_is_evaluated :
  length two_card_hand < 5
  /\ evaluate_hand two_card_hand =
     Return (Some (high_card, Some [Card.make 1 "3" "D"; Card.make 0 "2" "S"]))
  /\ hand_key two_card_hand = Return (1%Z, [1%Z; 0%Z]).
Proof. split; [simpl; lia|]. split; vm_compute; reflexivity. Qed.

(** C8 (amended).  The size of a hand is not checked anywhere: a hand of fewer
    than five cards is evaluated like any other.  The evaluation fails with
    [IndexError], or it returns a rank whose selection is all the cards of
    the hand. *)
Theorem short_hand_is_evaluated (hand : list Card.t) :
  Forall valid_card hand ->
  one_object_one_card hand ->
  length hand < 5 ->
  evaluate_hand hand = Raise IndexError
  \/ exists rank cs,
       evaluate_hand hand = Return (Some (rank, Some cs)) /\ Permutation cs hand.
Proof.
  intros Hvalid Hone Hlen.
  pose proof (evaluate_hand_ok Hvalid Hone) as Hok.
  destruct (evaluate_hand hand) as [[[rank [cs|]]|]|e]; cbn [evaluate_ok] in Hok;
    try contradiction.
  - right. exists rank, cs. split; [reflexivity|].
    destruct Hok as [Hall [rest Hperm]].
    pose proof (Permutation_length Hperm) as Hl. rewrite length_app in Hl.
    destruct rest as [|c rest]; [|simpl in Hl; lia].
    now rewrite app_nil_r in Hperm.
  - left. destruct Hok as [-> _]. reflexivity.
Qed.

Lemma two_card_hand_short :
  evaluate_hand two_card_hand = Raise IndexError
  \/ exists rank cs,
       evaluate_hand two_card_hand = Return (Some (rank, Some cs))
       /\ Permutation cs two_card_hand.
Proof.
  apply short_hand_is_evaluated.
  - repeat constructor.
  - apply distinct_objects. simpl.
    repeat (constructor; [simpl; intuition discriminate|]). constructor.
  - simpl. lia.
Defined.

(** C9.  On the empty sequence of hands [find_winners] returns nothing: the
    access [hands_ranks[0]] raises [IndexError]. *)
Theorem find_winners_empty : find_winners [] = Raise IndexError.
Proof. reflexivity. Qed.

(** C10.  [Card(code)] looks at the first two characters only.  When they
    are a value symbol and a suit symbol the card is built, whatever
    follows, and its code is these two characters; a code of two characters
    one of which is no such symbol raises [ValueError]; a code of fewer than
    two characters raises [IndexError]. *)
Theorem Card_init_reads_two_characters (addr : nat) (code : string) :
  (forall v s rest,
      code = String v (String s rest) ->
      char_in v VALUES = true -> char_in s SUITS = true ->
      exists c, Card.init addr code = Return c
                /\ Card.repr c = String v (String s EmptyString))
  /\ (forall v s,
         code = String v (String s EmptyString) ->
         char_in v VALUES = false \/ char_in s SUITS = false ->
         Card.init addr code = Raise ValueError)
  /\ (String.length code < 2 -> Card.init addr code = Raise IndexError).
Proof.
  unfold Card.init, str_index. split; [|split].
  - intros v s rest -> Hv Hs. cbn [String.get bind]. rewrite Hv, Hs. cbn [negb].
    eexists. split; reflexivity.
  - intros v s -> [Hv|Hs]; cbn [String.get bind].
    + now rewrite Hv.
    + rewrite Hs. now destruct (char_in v VALUES).
  - intros Hlen. destruct code as [|v [|s rest]]; cbn [String.get bind].
    + reflexivity.
    + reflexivity.
    + simpl in Hlen. lia.
Qed.

Lemma Card_init_examples :
  (exists c, Card.init 7 "AS!" = Return c /\ Card.repr c = "AS")
  /\ Card.init 7 "1S" = Raise ValueError
  /\ Card.init 7 "A" = Raise IndexError.
Proof.
  split; [|split].
  - apply (proj1 (Card_init_reads_two_characters 7 "AS!") "A"%char "S"%char "!");
      reflexivity.
  - apply (proj1 (proj2 (Card_init_reads_two_characters 7 "1S")) "1"%char "S"%char).
    + reflexivity.
    + left. reflexivity.
  - apply (proj2 (proj2 (Card_init_reads_two_characters 7 "A"))). simpl. lia.
Defined.

(** * Further properties of the module *)

(** ** The descending stable sort *)

Lemma StronglySorted_impl {A : Type} (R S : A -> A -> Prop) (l : list A) :
  (forall a b, R a b -> S a b) -> StronglySorted R l -> StronglySorted S l.
Proof.
  intros HRS. induction 1 as [|a l _ IH Ha]; constructor; [assumption|].
  eapply Forall_impl; [|exact Ha]. intros b. apply HRS.
Qed.

Section SortReverse.

Context {A : Type}.
Variable lt : A -> A -> bool.

(** [lt] is the strict part of a total preorder. *)
Hypothesis lt_asym : forall x y, lt x y = true -> lt y x = false.
Hypothesis lt_negtrans :
  forall x y z, lt x y = false -> lt y z = false -> lt x z = false.

Lemma insert_reverse_sorted (x : A) (l : list A) :
  StronglySorted (fun a b => lt a b = false) l ->
  StronglySorted (fun a b => lt a b = false) (insert_reverse lt x l).
Proof.
  induction l as [|y l IH]; intros Hs; cbn [insert_reverse].
  - constructor; constructor.
  - apply StronglySorted_inv in Hs as [Hs Hy].
    destruct (lt x y) eqn:Hxy.
    + constructor; [now apply IH|].
      apply (Permutation_Forall (Permutation_sym (insert_reverse_perm lt x l))).
      constructor; [now apply lt_asym | assumption].
    + constructor; [now constructor|].
      constructor; [assumption|].
      eapply Forall_impl; [|exact Hy]. intros e He. now apply lt_negtrans with y.
Qed.

Lemma sort_reverse_sorted (l : list A) :
  StronglySorted (fun a b => lt a b = false) (sort_reverse lt l).
Proof.
  induction l as [|x l IH]; cbn [sort_reverse fold_right].
  - constructor.
  - now apply insert_reverse_sorted.
Qed.

(** The first element of the sorted list is below no element of the list. *)
Lemma sort_reverse_head (l : list A) (first : A) (rest : list A) :
  sort_reverse lt l = first :: rest ->
  forall e, In e l -> lt first e = false.
Proof.
  intros Hsort e He.
  pose proof (sort_reverse_sorted l) as Hs. rewrite Hsort in Hs.
  apply StronglySorted_inv in Hs as [_ Hfirst].
  assert (Hin : In e (first :: rest)).
  { rewrite <- Hsort. apply (Permutation_in _ (Permutation_sym (sort_reverse_perm lt l)) He). }
  destruct Hin as [<-|Hin].
  - destruct (lt first first) eqn:Hff; [|reflexivity].
    now rewrite (lt_asym Hff) in Hff.
  - rewrite Forall_forall in Hfirst. now apply Hfirst.
Qed.

End SortReverse.

(** Stability: elements that two predicates never both relate keep their
    order; here for a sort by an integer key. *)
Lemma sort_reverse_by_key_stable {A : Type} (key : A -> Z) (k : Z) (l : list A) :
  filter (fun x => (key x =? k)%Z) (sort_reverse (fun a b => (key a <? key b)%Z) l)
  = filter (fun x => (key x =? k)%Z) l.
Proof.
  induction l as [|x l IH]; [reflexivity|].
  cbn [sort_reverse fold_right]. fold (sort_reverse (fun a b => (key a <? key b)%Z) l).
  transitivity (filter (fun x => (key x =? k)%Z)
                       (x :: sort_reverse (fun a b => (key a <? key b)%Z) l)).
  2:{ cbn [filter]. now rewrite IH. }
  generalize (sort_reverse (fun a b => (key a <? key b)%Z) l). clear IH.
  intros s. induction s as [|y s IHs]; [reflexivity|].
  cbn [insert_reverse]. destruct (key x <? key y)%Z eqn:Hxy; [|reflexivity].
  apply Z.ltb_lt in Hxy. cbn [filter] in *. rewrite IHs.
  destruct (Z.eqb_spec (key x) k), (Z.eqb_spec (key y) k); try reflexivity. lia.
Qed.

Lemma sort_by_value_descending (card_set : list Card.t) :
  StronglySorted (fun c d => (Card.sort_key d <= Card.sort_key c)%Z)
                 (sort_by_value card_set).
Proof.
  unfold sort_by_value.
  eapply StronglySorted_impl; [|apply sort_reverse_sorted].
  - intros c d H. cbv beta in H. now apply Z.ltb_ge in H.
  - intros x y H. apply Z.ltb_lt in H. apply Z.ltb_ge. lia.
  - intros x y z H1 H2. apply Z.ltb_ge in H1, H2. apply Z.ltb_ge. lia.
Qed.

(** X1.  sort_by_value: the same cards, highest first, cards of one value in their
    order of the input. *)
Theorem sort_by_value_sorted_stable (card_set : list Card.t) :
  Permutation (sort_by_value card_set) card_set
  /\ StronglySorted (fun c d => (Card.sort_key d <= Card.sort_key c)%Z)
                    (sort_by_value card_set)
  /\ forall k, filter (fun c => (Card.sort_key c =? k)%Z) (sort_by_value card_set)
               = filter (fun c => (Card.sort_key c =? k)%Z) card_set.
Proof.
  split; [apply sort_reverse_perm|]. split.
  - unfold sort_by_value.
    eapply StronglySorted_impl; [|apply sort_reverse_sorted].
    + intros c d H. cbv beta in H. now apply Z.ltb_ge in H.
    + intros x y H. apply Z.ltb_lt in H. apply Z.ltb_ge. lia.
    + intros x y z H1 H2. apply Z.ltb_ge in H1, H2. apply Z.ltb_ge. lia.
  - intros k. apply sort_reverse_by_key_stable.
Qed.

(** ** The arrangement dictionaries *)

Lemma dict_append_missing {V : Type} (f : ascii -> list V) (keys : list ascii)
    (k : ascii) (x : V) :
  existsb (Ascii.eqb k) keys = false ->
  dict_append k x (map (fun k' => (k', f k')) keys) = Raise KeyError.
Proof.
  induction keys as [|k' keys IH]; cbn [map dict_append existsb]; [reflexivity|].
  intros H. apply orb_false_elim in H as [Hk Hks].
  rewrite Ascii.eqb_sym, Hk. now rewrite (IH Hks).
Qed.

Lemma arrange_loop_total (field : Card.t -> ascii) (keys : list ascii) (l : list Card.t) :
  NoDup keys ->
  forall f : ascii -> list Card.t,
    arrange_loop field l (map (fun k => (k, f k)) keys) =
    if forallb (fun c => existsb (Ascii.eqb (field c)) keys) l
    then Return (map (fun k => (k, f k ++ select field k l)) keys)
    else Raise KeyError.
Proof.
  intros Hnd. induction l as [|c l IH]; intros f.
  - apply (@arrange_loop_map field keys [] Hnd). constructor.
  - cbn [forallb arrange_loop].
    destruct (existsb (Ascii.eqb (field c)) keys) eqn:Hc; cbn [andb].
    + assert (Hin : In (field c) keys).
      { apply existsb_exists in Hc as (k & Hk & Heq).
        apply Ascii.eqb_eq in Heq. now subst. }
      rewrite (@dict_append_map _ f keys (field c) c Hnd Hin). cbn [bind].
      rewrite IH. destruct (forallb _ l); [|reflexivity].
      f_equal. apply map_ext. intros k. unfold select. cbn [filter].
      destruct (Ascii.eqb_spec k (field c)) as [->|Hne].
      * rewrite Ascii.eqb_refl. now rewrite <- app_assoc.
      * destruct (Ascii.eqb_spec (field c) k) as [Heq|_]; [now subst | reflexivity].
    + now rewrite dict_append_missing.
Qed.

Lemma arrange_total (card_set : list Card.t) :
  arrange_by_value card_set =
    (if forallb (fun c => char_in (Card.value c) VALUES) card_set
     then Return (map (fun v => (v, filter (fun c => Ascii.eqb (Card.value c) v) card_set))
                      (list_ascii_of_string VALUES))
     else Raise KeyError)
  /\ arrange_by_suit card_set =
    (if forallb (fun c => char_in (Card.suit c) SUITS) card_set
     then Return (map (fun s => (s, filter (fun c => Ascii.eqb (Card.suit c) s) card_set))
                      (list_ascii_of_string SUITS))
     else Raise KeyError).
Proof.
  split.
  - apply (@arrange_loop_total Card.value _ card_set NoDup_VALUES (fun _ => [])).
  - apply (@arrange_loop_total Card.suit _ card_set NoDup_SUITS (fun _ => [])).
Qed.

(** X2.  arrange_by_value and arrange_by_suit: one entry per symbol of the domain,
    in the order of the domain, holding the cards with that symbol in their
    order of the input; [KeyError] as soon as a card carries a symbol outside
    the domain. *)
Theorem arrange_by_symbol (card_set : list Card.t) :
  arrange_by_value card_set =
    (if forallb (fun c => char_in (Card.value c) VALUES) card_set
     then Return (map (fun v => (v, filter (fun c => Ascii.eqb (Card.value c) v) card_set))
                      (list_ascii_of_string VALUES))
     else Raise KeyError)
  /\ arrange_by_suit card_set =
    (if forallb (fun c => char_in (Card.suit c) SUITS) card_set
     then Return (map (fun s => (s, filter (fun c => Ascii.eqb (Card.suit c) s) card_set))
                      (list_ascii_of_string SUITS))
     else Raise KeyError).
Proof. apply arrange_total. Qed.

(** ** The clusters, by size *)

Lemma StronglySorted_filter {A : Type} (R : A -> A -> Prop) (p : A -> bool) (l : list A) :
  StronglySorted R l -> StronglySorted R (filter p l).
Proof.
  induction 1 as [|a l _ IH Ha]; cbn [filter]; [constructor|].
  destruct (p a); [|assumption]. constructor; [assumption|].
  apply Forall_forall. intros b Hb. apply filter_In in Hb as [Hb _].
  rewrite Forall_forall in Ha. now apply Ha.
Qed.

Lemma StronglySorted_map {A B : Type} (R : B -> B -> Prop) (f : A -> B) (l : list A) :
  StronglySorted (fun a b => R (f a) (f b)) l -> StronglySorted R (map f l).
Proof.
  induction 1 as [|a l _ IH Ha]; cbn [map]; constructor; [assumption|].
  apply Forall_forall. intros b Hb. apply in_map_iff in Hb as (x & <- & Hx).
  rewrite Forall_forall in Ha. now apply Ha.
Qed.

Lemma item_lt_asym (a b : ascii * list Card.t) :
  item_lt a b = true -> item_lt b a = false.
Proof.
  unfold item_lt, char_lt.
  destruct (Nat.eqb_spec (length (snd a)) (length (snd b))) as [Hab|Hab];
    destruct (Nat.eqb_spec (length (snd b)) (length (snd a))) as [Hba|Hba];
    try lia; intros H; apply Nat.ltb_lt in H; apply Nat.ltb_ge; lia.
Qed.

Lemma item_lt_negtrans (a b c : ascii * list Card.t) :
  item_lt a b = false -> item_lt b c = false -> item_lt a c = false.
Proof.
  unfold item_lt, char_lt.
  destruct (Nat.eqb_spec (length (snd a)) (length (snd b)));
    destruct (Nat.eqb_spec (length (snd b)) (length (snd c)));
    destruct (Nat.eqb_spec (length (snd a)) (length (snd c)));
    intros H1 H2; apply Nat.ltb_ge in H1, H2; apply Nat.ltb_ge; lia.
Qed.

Lemma groups_by_size (by_value : dict (list Card.t)) :
  StronglySorted (fun g g' => length g' <= length g) (group_by_same_value by_value).
Proof.
  unfold group_by_same_value. apply StronglySorted_map, StronglySorted_filter.
  eapply StronglySorted_impl;
    [|apply (@sort_reverse_sorted _ item_lt (@item_lt_asym) (@item_lt_negtrans))].
  intros a b H. cbv beta in H. unfold item_lt in H.
  destruct (Nat.eqb_spec (length (snd a)) (length (snd b))); [lia|].
  apply Nat.ltb_ge in H. lia.
Qed.

(** X3.  group_by_same_value after arrange_by_value: the clusters are the
    non-empty selections by value, one per value present; together they hold
    the cards of the input, and their sizes never increase along the list. *)
Theorem clusters_partition_by_size (card_set : list Card.t) :
  forallb (fun c => char_in (Card.value c) VALUES) card_set = true ->
  exists (by_value : dict (list Card.t)) (vs : list ascii),
    arrange_by_value card_set = Return by_value
    /\ group_by_same_value by_value
      = map (fun v => filter (fun c => Ascii.eqb (Card.value c) v) card_set) vs
    /\ NoDup vs
    /\ (forall v, In v vs <-> exists c, In c card_set /\ Card.value c = v)
    /\ Permutation (concat (group_by_same_value by_value)) card_set
    /\ StronglySorted (fun g g' => length g' <= length g) (group_by_same_value by_value).
Proof.
  intros Hall. destruct (arrange_total card_set) as [Hbv _].
  rewrite Hall in Hbv. eexists. 
  set (F := fun v : ascii => filter (fun c => Ascii.eqb (Card.value c) v) card_set).
  set (g := fun v : ascii => (v, F v)).
  rewrite forallb_forall in Hall.
  cut (exists vs : list ascii,
    group_by_same_value (map g (list_ascii_of_string VALUES)) = map F vs
    /\ NoDup vs
    /\ (forall v, In v vs <-> exists c, In c card_set /\ Card.value c = v)
    /\ Permutation (concat (group_by_same_value (map g (list_ascii_of_string VALUES)))) card_set
    /\ StronglySorted (fun g g' => length g' <= length g)
                      (group_by_same_value (map g (list_ascii_of_string VALUES)))).
  { intros (vs & H). exists vs. split; [exact Hbv | exact H]. }
  clear Hbv.
  unfold group_by_same_value.
  destruct (Permutation_map_inv g (list_ascii_of_string VALUES)
              (sort_reverse_perm item_lt (map g (list_ascii_of_string VALUES))))
    as (vs' & Hsorted & Hperm).
  pose proof (groups_by_size (map g (list_ascii_of_string VALUES))) as Hsize.
  unfold group_by_same_value in Hsize.
  rewrite Hsorted, filter_map_swap, map_map in *. cbn [g snd] in *.
  exists (filter (fun v => negb (length (F v) =? 0)%nat) vs').
  split; [reflexivity|]. split.
  { apply NoDup_filter. eapply Permutation_NoDup; [exact Hperm | exact NoDup_VALUES]. }
  split.
  { intros v. rewrite filter_In. split.
    - intros [_ Hne]. destruct (F v) as [|c l] eqn:HF; [discriminate|].
      assert (Hc : In c (F v)) by (rewrite HF; now left).
      apply filter_In in Hc as [Hc Hv]. apply Ascii.eqb_eq in Hv. now exists c.
    - intros (c & Hc & <-). split.
      + apply (Permutation_in _ Hperm). apply char_in_In. now apply Hall.
      + assert (Hin : In c (F (Card.value c))).
        { apply filter_In. split; [assumption | apply Ascii.eqb_refl]. }
        destruct (F (Card.value c)); [contradiction | reflexivity]. }
  split; [|exact Hsize].
  transitivity (concat (map F (list_ascii_of_string VALUES))).
  - symmetry. etransitivity.
    { apply concat_perm, Permutation_map, Hperm. }
    rewrite <- (concat_filter_nonempty (map F vs')).
    rewrite filter_map_swap. apply Permutation_refl.
  - unfold F. rewrite (select_parts Card.value card_set NoDup_VALUES).
    rewrite filter_all; [apply Permutation_refl|].
    apply Forall_forall. intros c Hc. now apply Hall.
Qed.

Lemma full_house_hand_clusters :
  exists (by_value : dict (list Card.t)) (vs : list ascii),
    arrange_by_value full_house_hand = Return by_value
    /\ group_by_same_value by_value
      = map (fun v => filter (fun c => Ascii.eqb (Card.value c) v) full_house_hand) vs
    /\ NoDup vs
    /\ (forall v, In v vs <-> exists c, In c full_house_hand /\ Card.value c = v)
    /\ Permutation (concat (group_by_same_value by_value)) full_house_hand
    /\ StronglySorted (fun g g' => length g' <= length g) (group_by_same_value by_value).
Proof. apply clusters_partition_by_size. reflexivity. Defined.

(** ** Cards and their codes *)

(** X4.  Building a card again from the code that [__repr__] reports gives a card
    of the same value and suit. *)
Theorem Card_repr_round_trip (addr : nat) (c : Card.t) :
  valid_card c ->
  Card.init addr (Card.repr c) = Return (Card.make addr (Card.value c) (Card.suit c)).
Proof.
  intros [Hv Hs]. unfold Card.init, Card.repr, str_index.
  cbn [String.get bind]. now rewrite Hv, Hs.
Qed.

Lemma Card_repr_round_trip_nine_of_clubs :
  Card.init 8 (Card.repr (Card.make 5 "9" "C")) = Return (Card.make 8 "9" "C").
Proof.
  apply (Card_repr_round_trip 8 (c := Card.make 5 "9" "C")).
  split; reflexivity.
Defined.

Lemma find_from_absent (c : ascii) (l : list ascii) (i : Z) :
  existsb (Ascii.eqb c) l = false -> find_from c l i = (-1)%Z.
Proof.
  revert i. induction l as [|d l IH]; intros i; cbn [existsb find_from]; [reflexivity|].
  intros H. apply orb_false_elim in H as [Hd Hl].
  rewrite Ascii.eqb_sym, Hd. now apply IH.
Qed.

Lemma find_from_present (c : ascii) (l : list ascii) (i : Z) :
  existsb (Ascii.eqb c) l = true ->
  (i <= find_from c l i < i + Z.of_nat (length l))%Z
  /\ nth_error l (Z.to_nat (find_from c l i - i)) = Some c.
Proof.
  revert i. induction l as [|d l IH]; intros i; cbn [existsb find_from length];
    [discriminate|].
  intros H. destruct (Ascii.eqb_spec d c) as [->|Hne].
  - rewrite Z.sub_diag. split; [lia | reflexivity].
  - rewrite Ascii.eqb_sym in H.
    destruct (Ascii.eqb_spec d c) as [Heq|_]; [contradiction|]. cbn [orb] in H.
    destruct (IH (i + 1)%Z H) as [Hrange Hnth]. split; [lia|].
    replace (Z.to_nat (find_from c l (i + 1) - i))
      with (S (Z.to_nat (find_from c l (i + 1) - (i + 1)))) by lia.
    exact Hnth.
Qed.

(** X5.  sort_key: the position of the card's value in [VALUES], from 0 for the 2
    to 12 for the Ace, so cards with the same key have the same value; -1
    for a value outside [VALUES]. *)
Theorem sort_key_is_position (c : Card.t) :
  (char_in (Card.value c) VALUES = true ->
   (0 <= Card.sort_key c <= 12)%Z
   /\ String.get (Z.to_nat (Card.sort_key c)) VALUES = Some (Card.value c))
  /\ (char_in (Card.value c) VALUES = false -> Card.sort_key c = (-1)%Z).
Proof.
  unfold Card.sort_key, str_find, char_in. split; intros H.
  - destruct (find_from_present (Card.value c) (list_ascii_of_string VALUES) 0 H)
      as [Hrange Hnth].
    rewrite Z.sub_0_r in Hnth. split.
    { change (length (list_ascii_of_string VALUES)) with 13%nat in Hrange. lia. }
    revert Hnth. generalize (Z.to_nat (find_from (Card.value c) (list_ascii_of_string VALUES) 0)).
    generalize VALUES. intros s n. revert n.
    induction s as [|a s IH]; intros [|n]; cbn; try discriminate; auto.
  - now apply find_from_absent.
Qed.

Lemma sort_key_examples :
  ((0 <= Card.sort_key (Card.make 0 "A" "S") <= 12)%Z
   /\ String.get (Z.to_nat (Card.sort_key (Card.make 0 "A" "S"))) VALUES = Some "A"%char)
  /\ Card.sort_key (Card.make 0 "1" "S") = (-1)%Z.
Proof.
  split.
  - apply (proj1 (sort_key_is_position (Card.make 0 "A" "S"))). reflexivity.
  - apply (proj2 (sort_key_is_position (Card.make 0 "1" "S"))). reflexivity.
Defined.

(** ** What the extractors leave alone *)

Lemma only_cards_refl (self : HandEvaluator.t) : only_cards_change self self.
Proof. now destruct self. Qed.

Lemma only_cards_set (self self' : HandEvaluator.t) (cs : option (list Card.t)) :
  only_cards_change self self' ->
  only_cards_change self (HandEvaluator.set_cards self' cs).
Proof. unfold only_cards_change. intros ->. reflexivity. Qed.

Lemma only_cards_trans (a b c : HandEvaluator.t) :
  only_cards_change a b -> only_cards_change b c -> only_cards_change a c.
Proof. unfold only_cards_change. intros -> ->. reflexivity. Qed.

Lemma only_cards_views (hand : list Card.t) (self self' : HandEvaluator.t) :
  only_cards_change self self' -> views_of hand self -> views_of hand self'.
Proof. intros ->. apply views_set_cards. Qed.

Lemma straight_loop_frame (seqs : list string) (self self' : HandEvaluator.t) (found : bool) :
  HandEvaluator.straight_loop self seqs = Return (found, self') ->
  only_cards_change self self'
  /\ (found = true -> exists cs, HandEvaluator.cards self' = Some cs).
Proof.
  induction seqs as [|sequence seqs IH]; cbn [HandEvaluator.straight_loop].
  - intros [= <- <-]. split; [apply only_cards_refl | discriminate].
  - destruct (HandEvaluator.all_present _ _) as [[|]|]; cbn [bind];
      [|exact IH|discriminate].
    destruct (HandEvaluator.first_of_each _ _) as [cs|]; cbn [bind]; [|discriminate].
    intros [= <- <-]. split; [apply only_cards_set, only_cards_refl|].
    intros _. now exists cs.
Qed.

Lemma extract_straight_flush_frame (self self' : HandEvaluator.t) (found : bool) :
  HandEvaluator.extract_straight_flush self = Return (found, self') ->
  only_cards_change self self'
  /\ (found = true -> exists cs, HandEvaluator.cards self' = Some cs).
Proof.
  unfold HandEvaluator.extract_straight_flush, HandEvaluator.extract_straight.
  destruct (HandEvaluator.straight_loop self HandEvaluator.sequences)
    as [[found1 s1]|] eqn:Hs; cbn [bind]; [|discriminate].
  apply straight_loop_frame in Hs as [Hocc Hcs].
  destruct found1; cbn [bind].
  - destruct (Hcs eq_refl) as (cs & Hc). unfold HandEvaluator.cards_list.
    rewrite Hc. cbn [bind]. destruct (all_same_suit cs); intros [= <- <-].
    + split; [assumption | intros _; now exists cs].
    + split; [now apply only_cards_set | discriminate].
  - intros [= <- <-]. split; [now apply only_cards_set | discriminate].
Qed.

Lemma extract_royal_flush_frame (self self' : HandEvaluator.t) (found : bool) :
  HandEvaluator.extract_royal_flush self = Return (found, self') ->
  only_cards_change self self'
  /\ (found = true -> exists cs, HandEvaluator.cards self' = Some cs).
Proof.
  unfold HandEvaluator.extract_royal_flush.
  destruct (HandEvaluator.extract_straight_flush self)
    as [[found1 s1]|] eqn:Hs; cbn [bind]; [|discriminate].
  apply extract_straight_flush_frame in Hs as [Hocc Hcs].
  destruct found1; cbn [bind].
  - destruct (Hcs eq_refl) as (cs & Hc). unfold HandEvaluator.cards_list.
    rewrite Hc. cbn [bind].
    destruct (list_index cs (length cs - 1)) as [c|]; cbn [bind]; [|discriminate].
    destruct (Ascii.eqb (Card.value c) "T"); intros [= <- <-].
    + split; [assumption | intros _; now exists cs].
    + split; [now apply only_cards_set | discriminate].
  - intros [= <- <-]. split; [now apply only_cards_set | discriminate].
Qed.

Lemma extract_n_of_a_kind_frame (self self' : HandEvaluator.t) (n : Z) (found : bool) :
  HandEvaluator.extract_n_of_a_kind self n = Return (found, self') ->
  only_cards_change self self'
  /\ (found = true -> exists cs, HandEvaluator.cards self' = Some cs).
Proof.
  intros H. pose proof (extract_n_of_a_kind_never_found _ _ H) as ->.
  split; [|discriminate]. revert H. unfold HandEvaluator.extract_n_of_a_kind.
  destruct (list_index (HandEvaluator.groups self) 0) as [g|]; cbn [bind]; [|discriminate].
  destruct (list_index g 0) as [c|]; cbn [bind]; [|discriminate].
  cbn [py_ne py_eq negb]. intros [= <-]. apply only_cards_refl.
Qed.

Lemma extract_full_house_frame (self self' : HandEvaluator.t) (found : bool) :
  HandEvaluator.extract_full_house self = Return (found, self') ->
  only_cards_change self self'
  /\ (found = true -> exists cs, HandEvaluator.cards self' = Some cs).
Proof.
  unfold HandEvaluator.extract_full_house.
  destruct (list_index (HandEvaluator.groups self) 0) as [g0|]; cbn [bind]; [|discriminate].
  destruct (length g0 =? 3)%nat; cbn [bind].
  - destruct (list_index (HandEvaluator.groups self) 1) as [g1|]; cbn [bind]; [|discriminate].
    destruct (2 <=? length g1)%nat; cbn [bind]; intros [= <- <-].
    + split; [apply only_cards_set, only_cards_refl | intros _; eexists; reflexivity].
    + split; [apply only_cards_refl | discriminate].
  - intros [= <- <-]. split; [apply only_cards_refl | discriminate].
Qed.

Lemma extract_flush_frame (self self' : HandEvaluator.t) (found : bool) :
  HandEvaluator.extract_flush self = Return (found, self') ->
  only_cards_change self self'
  /\ (found = true -> exists cs, HandEvaluator.cards self' = Some cs).
Proof.
  unfold HandEvaluator.extract_flush.
  destruct (filter _ (map snd (HandEvaluator.by_suit self))) as [|x0 fl].
  - intros [= <- <-]. split; [apply only_cards_refl | discriminate].
  - destruct (mapM _ (x0 :: fl)) as [keyed|]; cbn [bind]; [|discriminate].
    destruct (list_index _ 0) as [cs|]; cbn [bind]; [|discriminate].
    intros [= <- <-].
    split; [apply only_cards_set, only_cards_refl | intros _; now exists cs].
Qed.

Lemma extract_two_pairs_frame (self self' : HandEvaluator.t) (found : bool) :
  HandEvaluator.extract_two_pairs self = Return (found, self') ->
  only_cards_change self self'
  /\ (found = true -> exists cs, HandEvaluator.cards self' = Some cs).
Proof.
  unfold HandEvaluator.extract_two_pairs.
  destruct (list_index (HandEvaluator.groups self) 0) as [g0|]; cbn [bind]; [|discriminate].
  destruct (length g0 =? 2)%nat; cbn [bind].
  - destruct (list_index (HandEvaluator.groups self) 1) as [g1|]; cbn [bind]; [|discriminate].
    destruct (length g1 =? 2)%nat; cbn [bind HandEvaluator.complete_hand
      HandEvaluator.cards HandEvaluator.set_cards]; intros [= <- <-].
    + split; [do 2 apply only_cards_set; apply only_cards_refl
             | intros _; eexists; reflexivity].
    + split; [apply only_cards_refl | discriminate].
  - intros [= <- <-]. split; [apply only_cards_refl | discriminate].
Qed.

Lemma extract_rank_frame (self self' : HandEvaluator.t) (rank : Rank) (found : bool) :
  HandEvaluator.extract_rank self rank = Return (found, self') ->
  only_cards_change self self'
  /\ (found = true -> exists cs, HandEvaluator.cards self' = Some cs).
Proof.
  intros H. destruct rank; cbn [HandEvaluator.extract_rank] in H.
  - now apply extract_royal_flush_frame.
  - now apply extract_straight_flush_frame.
  - now apply extract_n_of_a_kind_frame with (n := 4%Z).
  - now apply extract_full_house_frame.
  - now apply extract_flush_frame.
  - now apply straight_loop_frame with (seqs := HandEvaluator.sequences).
  - now apply extract_n_of_a_kind_frame with (n := 3%Z).
  - now apply extract_two_pairs_frame.
  - now apply extract_n_of_a_kind_frame with (n := 2%Z).
  - injection H as <- <-.
    split; [apply only_cards_set, only_cards_refl | intros _; eexists; reflexivity].
Qed.



(** ** What a reported rank says about the selection *)

Lemma evaluate_loop_found (ranks : list Rank) :
  forall (self self' : HandEvaluator.t) (r : option (Rank * option (list Card.t))),
    HandEvaluator.evaluate_loop self ranks = Return (r, self') ->
    only_cards_change self self'
    /\ match r with
       | Some (rank, ocs) =>
           In rank ranks /\ ocs = HandEvaluator.cards self'
           /\ exists s, only_cards_change self s
                        /\ HandEvaluator.extract_rank s rank = Return (true, self')
       | None => True
       end.
Proof.
  induction ranks as [|rank ranks IH]; intros self self' r;
    cbn [HandEvaluator.evaluate_loop].
  - intros [= <- <-]. split; [apply only_cards_refl | exact I].
  - destruct (HandEvaluator.extract_rank self rank) as [[found s1]|] eqn:Hrun;
      cbn [bind]; [|discriminate].
    destruct (extract_rank_frame _ _ Hrun) as [Hocc _]. destruct found.
    + intros [= <- <-]. split; [assumption|]. split; [now left|].
      split; [reflexivity|]. exists self. split; [apply only_cards_refl | assumption].
    + intros Hrest. destruct (IH _ _ _ Hrest) as [Hocc' Hr].
      split; [now apply only_cards_trans with s1|].
      destruct r as [[rank' ocs]|]; [|exact I].
      destruct Hr as (Hin & Hocs & s & Hs & Hx).
      split; [now right|]. split; [assumption|].
      exists s. split; [now apply only_cards_trans with s1 | assumption].
Qed.

(** A result of [evaluate_hand] comes from an extractor that answered [True]
    on the views of the hand. *)
Lemma evaluate_hand_found (hand : list Card.t) (rank : Rank) (ocs : option (list Card.t)) :
  evaluate_hand hand = Return (Some (rank, ocs)) ->
  Forall valid_card hand
  /\ exists s s', views_of hand s
                  /\ HandEvaluator.extract_rank s rank = Return (true, s')
                  /\ ocs = HandEvaluator.cards s'.
Proof.
  unfold evaluate_hand, HandEvaluator.init.
  destruct (arrange_total (sort_by_value hand)) as [_ ->].
  destruct (arrange_total hand) as [-> _].
  destruct (forallb (fun c => char_in (Card.suit c) SUITS) (sort_by_value hand)) eqn:Hs;
    cbn [bind]; [|discriminate].
  destruct (forallb (fun c => char_in (Card.value c) VALUES) hand) eqn:Hv;
    cbn [bind]; [|discriminate].
  match goal with
  | |- context [HandEvaluator.evaluate ?s] =>
      assert (Hviews : views_of hand s) by (constructor; reflexivity);
      generalize dependent s
  end.
  intros s0 Hviews0.
  destruct (HandEvaluator.evaluate s0) as [[r1 s1]|] eqn:H1; cbn [bind]; [|discriminate].
  destruct (HandEvaluator.evaluate s1) as [[r2 s2]|] eqn:H2; cbn [bind]; [|discriminate].
  intros [= ->]. split.
  - rewrite forallb_forall in Hs, Hv. apply Forall_forall. intros c Hc. split.
    + now apply Hv.
    + apply Hs. apply (Permutation_in _ (Permutation_sym (sort_reverse_perm _ hand)) Hc).
  - destruct (evaluate_loop_found _ _ H1) as [Hocc1 _].
    destruct (evaluate_loop_found _ _ H2) as [_ (_ & Hocs & s & Hocc2 & Hx)].
    exists s, s2. split; [|split; assumption].
    apply (only_cards_views Hocc2), (only_cards_views Hocc1), Hviews0.
Qed.

(** X7.  Whatever the hand, [evaluate] reports none of the ranks that
    [extract_n_of_a_kind] is to find. *)
Theorem evaluate_never_reports_n_of_a_kind (hand : list Card.t) (rank : Rank)
    (cs : option (list Card.t)) :
  evaluate_hand hand = Return (Some (rank, cs)) ->
  rank <> four_of_a_kind /\ rank <> three_of_a_kind /\ rank <> pair.
Proof.
  intros H. destruct (evaluate_hand_found _ H) as (_ & s & s' & _ & Hx & _).
  repeat split; intros ->; cbn [HandEvaluator.extract_rank] in Hx;
    apply extract_n_of_a_kind_never_found in Hx; discriminate.
Qed.

Lemma full_house_hand_rank_is_no_n_of_a_kind :
  full_house <> four_of_a_kind /\ full_house <> three_of_a_kind /\ full_house <> pair.
Proof.
  apply (@evaluate_never_reports_n_of_a_kind full_house_hand full_house
           (Some (firstn 5 full_house_hand))).
  vm_compute. reflexivity.
Defined.

(** *** Straight, Straight Flush and Royal Flush *)

Lemma first_of_each_values (hand : list Card.t) (bv : dict (list Card.t))
    (vs : list ascii) (cs : list Card.t) :
  (forall v, char_in v VALUES = true ->
             dict_get v bv = Return (select Card.value v hand)) ->
  forallb (fun v => char_in v VALUES) vs = true ->
  HandEvaluator.first_of_each bv vs = Return cs ->
  map Card.value cs = vs /\ incl cs hand.
Proof.
  intros Hbv. unfold HandEvaluator.first_of_each.
  revert cs. induction vs as [|v vs IH]; intros cs Hin; cbn [mapM].
  - intros [= <-]. split; [reflexivity | intros c []].
  - cbn [forallb] in Hin. apply andb_prop in Hin as [Hv Hvs].
    rewrite (Hbv v Hv). cbn [bind].
    destruct (list_index (select Card.value v hand) 0) as [c|] eqn:Hc;
      cbn [bind]; [|discriminate].
    destruct (mapM _ vs) as [cs'|]; cbn [bind]; [|discriminate].
    intros [= <-]. destruct (IH cs' Hvs eq_refl) as [Hmap Hincl].
    unfold list_index in Hc.
    destruct (select Card.value v hand) as [|c0 l] eqn:Hsel; [discriminate|].
    injection Hc as ->.
    assert (Hcin : In c (select Card.value v hand)) by (rewrite Hsel; now left).
    apply filter_In in Hcin as [Hcin Hcv]. apply Ascii.eqb_eq in Hcv.
    split.
    + cbn [map]. now rewrite Hcv, Hmap.
    + intros x [<-|Hx]; auto.
Qed.

Lemma straight_loop_window (hand : list Card.t) (seqs : list string)
    (s s' : HandEvaluator.t) :
  views_of hand s ->
  forallb window seqs = true ->
  HandEvaluator.straight_loop s seqs = Return (true, s') ->
  exists sequence cs,
    In sequence seqs
    /\ HandEvaluator.cards s' = Some cs
    /\ map Card.value cs = list_ascii_of_string sequence
    /\ incl cs hand.
Proof.
  intros Hviews. induction seqs as [|sequence seqs IH];
    cbn [HandEvaluator.straight_loop forallb]; [discriminate|].
  intros Hw. apply andb_prop in Hw as [Hw Hws].
  assert (Hin : forallb (fun v => char_in v VALUES) (list_ascii_of_string sequence) = true).
  { unfold window in Hw. apply andb_prop in Hw as [Hw _].
    now apply andb_prop in Hw as [_ Hw]. }
  destruct (HandEvaluator.all_present _ _) as [[|]|]; cbn [bind]; [| |discriminate].
  - destruct (HandEvaluator.first_of_each _ _) as [cs|] eqn:Hcs; cbn [bind];
      [|discriminate].
    intros [= <-]. exists sequence, cs. split; [now left|]. split; [reflexivity|].
    apply (@first_of_each_values hand _ _ cs (by_value_lookup Hviews) Hin Hcs).
  - intros Hrest. destruct (IH Hws Hrest) as (sq & cs & Hsq & H).
    exists sq, cs. split; [now right | exact H].
Qed.

Lemma extract_straight_flush_found (s s' : HandEvaluator.t) :
  HandEvaluator.extract_straight_flush s = Return (true, s') ->
  HandEvaluator.extract_straight s = Return (true, s')
  /\ exists cs, HandEvaluator.cards s' = Some cs /\ all_same_suit cs = true.
Proof.
  unfold HandEvaluator.extract_straight_flush.
  destruct (HandEvaluator.extract_straight s) as [[[|] s1]|]; cbn [bind];
    try discriminate.
  unfold HandEvaluator.cards_list.
  destruct (HandEvaluator.cards s1) as [cs|] eqn:Hc; cbn [bind]; [|discriminate].
  destruct (all_same_suit cs) eqn:Hsame; intros [= <-].
  split; [reflexivity|]. now exists cs.
Qed.

Lemma extract_royal_flush_found (s s' : HandEvaluator.t) :
  HandEvaluator.extract_royal_flush s = Return (true, s') ->
  HandEvaluator.extract_straight_flush s = Return (true, s')
  /\ exists cs c, HandEvaluator.cards s' = Some cs
                  /\ nth_error cs (length cs - 1) = Some c
                  /\ Card.value c = "T"%char.
Proof.
  unfold HandEvaluator.extract_royal_flush.
  destruct (HandEvaluator.extract_straight_flush s) as [[[|] s1]|]; cbn [bind];
    try discriminate.
  unfold HandEvaluator.cards_list, list_index.
  destruct (HandEvaluator.cards s1) as [cs|] eqn:Hc; cbn [bind]; [|discriminate].
  destruct (nth_error cs (length cs - 1)) as [c|] eqn:Hnth; cbn [bind]; [|discriminate].
  destruct (Ascii.eqb_spec (Card.value c) "T"); intros [= <-].
  split; [reflexivity|]. now exists cs, c.
Qed.

(** The window of a royal flush: the only one that ends in the Ten. *)
Lemma window_ending_in_ten (sequence : string) (cs : list Card.t) (c : Card.t) :
  In sequence HandEvaluator.sequences ->
  map Card.value cs = list_ascii_of_string sequence ->
  nth_error cs (length cs - 1) = Some c ->
  Card.value c = "T"%char ->
  sequence = "AQKJT".
Proof.
  intros Hin Hmap Hnth Hten.
  assert (Hlast : nth_error (list_ascii_of_string sequence)
                            (length (list_ascii_of_string sequence) - 1)
                  = Some "T"%char).
  { rewrite <- Hmap, length_map, nth_error_map, Hnth. cbn. now rewrite Hten. }
  clear - Hin Hlast. cbv in Hin.
  repeat (destruct Hin as [<-|Hin]; [first [reflexivity | discriminate Hlast]|]).
  contradiction.
Qed.

(** X8.  When [evaluate] reports a Straight, a Straight Flush or a Royal Flush,
    the values of the five cards are, in order, the symbols of one of the ten
    windows; for the two flushes the cards share one suit, and for the Royal
    Flush the window is the first one. *)
Theorem straight_ranks_select_a_window (hand : list Card.t) (rank : Rank) (cs : list Card.t) :
  evaluate_hand hand = Return (Some (rank, Some cs)) ->
  rank = straight \/ rank = straight_flush \/ rank = royal_flush ->
  exists sequence,
    In sequence HandEvaluator.sequences
    /\ map Card.value cs = list_ascii_of_string sequence
    /\ incl cs hand
    /\ (rank <> straight -> all_same_suit cs = true)
    /\ (rank = royal_flush -> sequence = "AQKJT").
Proof.
  intros H Hrank.
  destruct (evaluate_hand_found _ H) as (_ & s & s' & Hviews & Hx & Hcards).
  destruct Hrank as [-> | [-> | ->]]; cbn [HandEvaluator.extract_rank] in Hx.
  - destruct (straight_loop_window _ Hviews sequences_windows Hx)
      as (sq & cs' & Hsq & Hc & Hmap & Hincl).
    rewrite Hc in Hcards. injection Hcards as ->.
    exists sq. do 3 (split; [assumption|]).
    split; [intros Hne; now elim Hne | discriminate].
  - destruct (extract_straight_flush_found _ Hx) as (Hs & cs1 & Hc1 & Hsame).
    destruct (straight_loop_window _ Hviews sequences_windows Hs)
      as (sq & cs' & Hsq & Hc & Hmap & Hincl).
    rewrite Hc in Hcards. injection Hcards as ->.
    rewrite Hc in Hc1. injection Hc1 as ->.
    exists sq. do 3 (split; [assumption|]).
    split; [intros _; assumption | discriminate].
  - destruct (extract_royal_flush_found _ Hx) as (Hsf & cs0 & c & Hc0 & Hnth & Hten).
    destruct (extract_straight_flush_found _ Hsf) as (Hs & cs1 & Hc1 & Hsame).
    destruct (straight_loop_window _ Hviews sequences_windows Hs)
      as (sq & cs' & Hsq & Hc & Hmap & Hincl).
    rewrite Hc in Hcards. injection Hcards as ->.
    rewrite Hc in Hc1. injection Hc1 as ->.
    rewrite Hc in Hc0. injection Hc0 as ->.
    exists sq. do 3 (split; [assumption|]).
    split; [intros _; assumption|].
    intros _. eapply window_ending_in_ten; eassumption.
Qed.

Lemma royal_flush_hand_window :
  exists sequence,
    In sequence HandEvaluator.sequences
    /\ map Card.value
           [ Card.make 0 "A" "S"; Card.make 2 "Q" "S"; Card.make 1 "K" "S";
             Card.make 3 "J" "S"; Card.make 4 "T" "S" ]
       = list_ascii_of_string sequence
    /\ incl [ Card.make 0 "A" "S"; Card.make 2 "Q" "S"; Card.make 1 "K" "S";
              Card.make 3 "J" "S"; Card.make 4 "T" "S" ] royal_flush_hand
    /\ (royal_flush <> straight ->
        all_same_suit
          [ Card.make 0 "A" "S"; Card.make 2 "Q" "S"; Card.make 1 "K" "S";
            Card.make 3 "J" "S"; Card.make 4 "T" "S" ] = true)
    /\ (royal_flush = royal_flush -> sequence = "AQKJT").
Proof.
  apply (@straight_ranks_select_a_window royal_flush_hand royal_flush).
  - vm_compute. reflexivity.
  - right. right. reflexivity.
Defined.

(** *** Flush *)

Lemma mapM_Return_inj {A B : Type} (f : A -> result B) (l : list A) (ys ys' : list B) :
  mapM f l = Return ys -> mapM f l = Return ys' -> ys = ys'.
Proof. congruence. Qed.

(** X9.  When [evaluate] reports a Flush, the five cards are all the cards of one
    suit, which the hand holds exactly five times, highest first. *)
Theorem flush_selects_a_whole_suit (hand : list Card.t) (cs : list Card.t) :
  evaluate_hand hand = Return (Some (flush, Some cs)) ->
  exists su : ascii,
    char_in su SUITS = true
    /\ cs = filter (fun c => Ascii.eqb (Card.suit c) su) (sort_by_value hand)
    /\ length cs = 5.
Proof.
  intros H.
  destruct (evaluate_hand_found _ H) as (_ & s & s' & Hviews & Hx & Hcards).
  cbn [HandEvaluator.extract_rank] in Hx. unfold HandEvaluator.extract_flush in Hx.
  set (fl := filter (fun lst => (length lst =? 5)%nat)
                    (map snd (HandEvaluator.by_suit s))) in Hx.
  assert (Hfl : forall x, In x fl ->
                 length x = 5
                 /\ exists su, char_in su SUITS = true
                               /\ x = select Card.suit su (sort_by_value hand)).
  { intros x Hxin. apply filter_In in Hxin as [Hxin Hlen].
    rewrite (views_by_suit Hviews), map_map in Hxin.
    apply in_map_iff in Hxin as (su & <- & Hsu). cbn [snd] in *.
    split; [now apply Nat.eqb_eq|]. exists su. split; [now apply char_in_In | reflexivity]. }
  clearbody fl. destruct fl as [|x0 fl']; [discriminate|].
  destruct (@flush_keys (x0 :: fl')) as (keyed & Hk & Hsnd).
  { intros x Hxin. now apply Hfl. }
  rewrite Hk in Hx. cbn [bind] in Hx.
  destruct (list_index _ 0) as [cs'|] eqn:Hidx; cbn [bind] in Hx; [|discriminate].
  injection Hx as <-. cbn [HandEvaluator.cards HandEvaluator.set_cards] in Hcards.
  injection Hcards as ->.
  unfold list_index in Hidx.
  destruct (nth_error _ 0) as [y|] eqn:Hnth; [|discriminate]. injection Hidx as ->.
  apply nth_error_In in Hnth.
  assert (Hin : In cs' (x0 :: fl')).
  { rewrite <- Hsnd. revert Hnth. apply Permutation_in.
    apply Permutation_map, sort_reverse_perm. }
  destruct (Hfl cs' Hin) as (Hlen & su & Hsu & ->).
  exists su. repeat split; assumption.
Qed.

Lemma flush_hand_selects_spades :
  exists su : ascii,
    char_in su SUITS = true
    /\ [ Card.make 4 "T" "S"; Card.make 3 "8" "S"; Card.make 2 "6" "S";
         Card.make 1 "4" "S"; Card.make 0 "2" "S" ]
       = filter (fun c => Ascii.eqb (Card.suit c) su) (sort_by_value flush_hand)
    /\ length [ Card.make 4 "T" "S"; Card.make 3 "8" "S"; Card.make 2 "6" "S";
                Card.make 1 "4" "S"; Card.make 0 "2" "S" ] = 5.
Proof. apply flush_selects_a_whole_suit. vm_compute. reflexivity. Defined.

(** *** Full House *)

Lemma select_values (v : ascii) (l : list Card.t) :
  Forall (fun c => Card.value c = v) (select Card.value v l).
Proof.
  apply Forall_forall. intros c Hc. apply filter_In in Hc as [_ Hc].
  now apply Ascii.eqb_eq.
Qed.

Lemma select_incl (field : Card.t -> ascii) (k : ascii) (l : list Card.t) :
  incl (select field k l) l.
Proof. intros c Hc. now apply filter_In in Hc as [Hc _]. Qed.

(** X10.  When [evaluate] reports a Full House, the hand holds exactly three cards
    of one value and at least two of another, and the selection is the three
    followed by the first two of the others. *)
Theorem full_house_selects_three_and_two (hand : list Card.t) (cs : list Card.t) :
  evaluate_hand hand = Return (Some (full_house, Some cs)) ->
  exists v0 v1 : ascii,
    v0 <> v1
    /\ length (filter (fun c => Ascii.eqb (Card.value c) v0) hand) = 3
    /\ 2 <= length (filter (fun c => Ascii.eqb (Card.value c) v1) hand)
    /\ cs = filter (fun c => Ascii.eqb (Card.value c) v0) hand
            ++ firstn 2 (filter (fun c => Ascii.eqb (Card.value c) v1) hand)
    /\ map Card.value cs = [v0; v0; v0; v1; v1].
Proof.
  intros H.
  destruct (evaluate_hand_found _ H) as (Hvalid & s & s' & Hviews & Hx & Hcards).
  cbn [HandEvaluator.extract_rank] in Hx. unfold HandEvaluator.extract_full_house in Hx.
  destruct (groups_of_views Hvalid Hviews) as (vs & Hg & Hnd & _ & _).
  rewrite Hg in Hx. clear Hg.
  destruct vs as [|v0 vs]; cbn [map list_index nth_error bind] in Hx; [discriminate|].
  destruct (length (select Card.value v0 hand) =? 3)%nat eqn:H3;
    cbn [bind] in Hx; [|discriminate].
  destruct vs as [|v1 vs]; cbn [map list_index nth_error bind] in Hx; [discriminate|].
  destruct (2 <=? length (select Card.value v1 hand))%nat eqn:H2;
    cbn [bind] in Hx; [|discriminate].
  injection Hx as <-. cbn [HandEvaluator.cards HandEvaluator.set_cards] in Hcards.
  injection Hcards as ->.
  apply Nat.eqb_eq in H3. apply Nat.leb_le in H2.
  exists v0, v1. split.
  { inversion Hnd as [|? ? Hnotin _]; subst. intros ->. apply Hnotin. now left. }
  do 3 (split; [assumption || reflexivity|]).
  pose proof (select_values v0 hand) as Hv0.
  pose proof (select_values v1 hand) as Hv1.
  unfold select in *.
  destruct (filter (fun c => Ascii.eqb (Card.value c) v0) hand)
    as [|a [|b [|c [|d l0]]]]; try discriminate H3.
  destruct (filter (fun c => Ascii.eqb (Card.value c) v1) hand)
    as [|d [|e l1]]; cbn [length] in H2; try lia.
  cbn [firstn app map].
  repeat match goal with
         | Hf : Forall _ (_ :: _) |- _ => inversion Hf; subst; clear Hf
         end.
  congruence.
Qed.

Lemma full_house_hand_three_and_two :
  exists v0 v1 : ascii,
    v0 <> v1
    /\ length (filter (fun c => Ascii.eqb (Card.value c) v0) full_house_hand) = 3
    /\ 2 <= length (filter (fun c => Ascii.eqb (Card.value c) v1) full_house_hand)
    /\ firstn 5 full_house_hand
       = filter (fun c => Ascii.eqb (Card.value c) v0) full_house_hand
         ++ firstn 2 (filter (fun c => Ascii.eqb (Card.value c) v1) full_house_hand)
    /\ map Card.value (firstn 5 full_house_hand) = [v0; v0; v0; v1; v1].
Proof. apply full_house_selects_three_and_two. vm_compute. reflexivity. Defined.

(** *** complete_hand *)

Lemma card_in_app (c : Card.t) (l m : list Card.t) :
  card_in c (l ++ m) = card_in c l || card_in c m.
Proof. apply existsb_app. Qed.

Lemma complete_loop_appends (src : list Card.t) :
  forall cs : list Card.t,
  exists added : list Card.t,
    HandEvaluator.complete_loop src cs = cs ++ added
    /\ (forall c, In c added -> In c src /\ card_in c cs = false)
    /\ NoDup (map Card.oid added)
    /\ (length cs < 5 -> length (cs ++ added) <= 5)
    /\ (length (cs ++ added) < 5 ->
        forall c, In c src -> card_in c (cs ++ added) = true).
Proof.
  induction src as [|c src IH]; intros cs; cbn [HandEvaluator.complete_loop].
  - exists []. rewrite app_nil_r. repeat split; try (intros; contradiction).
    + constructor.
    + lia.
  - destruct (card_in c cs) eqn:Hc; cbn [negb].
    + destruct (IH cs) as (added & -> & Hnew & Hnd & Hlen & Hall).
      exists added. split; [reflexivity|]. split.
      { intros x Hx. destruct (Hnew x Hx). auto with datatypes. }
      split; [assumption|]. split; [assumption|].
      intros Hshort x [<-|Hx]; [|now apply Hall].
      rewrite card_in_app, Hc. reflexivity.
    + destruct (length (cs ++ [c]) =? 5)%nat eqn:Hfive.
      * apply Nat.eqb_eq in Hfive. exists [c]. split; [reflexivity|]. split.
        { intros x [<-|[]]. split; [now left | assumption]. }
        split; [repeat constructor; intros []|].
        split; [lia|]. lia.
      * apply Nat.eqb_neq in Hfive.
        destruct (IH (cs ++ [c])) as (added & -> & Hnew & Hnd & Hlen & Hall).
        exists (c :: added). rewrite <- app_assoc. cbn [app].
        split; [reflexivity|]. split.
        { intros x [<-|Hx]; [split; [now left | assumption]|].
          destruct (Hnew x Hx) as [Hsrc Hnot]. split; [now right|].
          rewrite card_in_app in Hnot. now apply orb_false_elim in Hnot as [Hnot _]. }
        split.
        { cbn [map]. constructor; [|assumption]. intros Hin.
          apply in_map_iff in Hin as (x & Hoid & Hx).
          destruct (Hnew x Hx) as [_ Hnot]. rewrite card_in_app in Hnot.
          apply orb_false_elim in Hnot as [_ Hnot].
          cbn in Hnot. rewrite orb_false_r in Hnot.
          apply Nat.eqb_neq in Hnot. congruence. }
        rewrite length_app in Hfive, Hlen. cbn [length] in Hfive, Hlen.
        replace (cs ++ c :: added) with ((cs ++ [c]) ++ added)
          by (now rewrite <- app_assoc).
        split; [intros; apply Hlen; lia|].
        intros Hshort x [<-|Hx]; [|now apply Hall].
        rewrite !card_in_app. rewrite (card_in_In c [c]) by now left.
        now rewrite orb_true_r.
Qed.

(** X11.  complete_hand keeps the cards selected so far in front and appends cards
    of [sorted_by_value] that are not selected yet, each object once; from
    fewer than five cards it never goes beyond five, and it ends with fewer
    than five only when every card of [sorted_by_value] is selected. *)
Theorem complete_hand_appends_new_cards (self : HandEvaluator.t) (cs : list Card.t) :
  HandEvaluator.cards self = Some cs ->
  exists added : list Card.t,
    HandEvaluator.complete_hand self
      = Return (HandEvaluator.set_cards self (Some (cs ++ added)))
    /\ (forall c, In c added ->
                  In c (HandEvaluator.sorted_by_value self) /\ card_in c cs = false)
    /\ NoDup (map Card.oid added)
    /\ (length cs < 5 -> length (cs ++ added) <= 5)
    /\ (length (cs ++ added) < 5 ->
        forall c, In c (HandEvaluator.sorted_by_value self) ->
                  card_in c (cs ++ added) = true).
Proof.
  intros Hc. unfold HandEvaluator.complete_hand. rewrite Hc.
  destruct (complete_loop_appends (HandEvaluator.sorted_by_value self) cs)
    as (added & -> & H).
  exists added. split; [reflexivity | exact H].
Qed.

Lemma complete_hand_two_pairs_example :
  let self := HandEvaluator.make two_pairs_hand
                (Some [ Card.make 2 "6" "S"; Card.make 3 "6" "D";
                        Card.make 0 "2" "S"; Card.make 1 "2" "D" ])
                (sort_by_value two_pairs_hand) [] [] [] in
  let cs := [ Card.make 2 "6" "S"; Card.make 3 "6" "D";
              Card.make 0 "2" "S"; Card.make 1 "2" "D" ] in
  exists added : list Card.t,
    HandEvaluator.complete_hand self
      = Return (HandEvaluator.set_cards self (Some (cs ++ added)))
    /\ (forall c, In c added ->
                  In c (HandEvaluator.sorted_by_value self) /\ card_in c cs = false)
    /\ NoDup (map Card.oid added)
    /\ (length cs < 5 -> length (cs ++ added) <= 5)
    /\ (length (cs ++ added) < 5 ->
        forall c, In c (HandEvaluator.sorted_by_value self) ->
                  card_in c (cs ++ added) = true).
Proof.
  intros self cs. apply (@complete_hand_appends_new_cards self cs). reflexivity.
Defined.

(** *** Two Pairs *)

Lemma StronglySorted_app_cross {A : Type} (R : A -> A -> Prop) (l m : list A) :
  StronglySorted R (l ++ m) -> forall a b, In a l -> In b m -> R a b.
Proof.
  induction l as [|x l IH]; intros Hs a b Ha Hb; [contradiction|].
  cbn [app] in Hs. apply StronglySorted_inv in Hs as [Hs Hx].
  destruct Ha as [<-|Ha]; [|now apply IH].
  rewrite Forall_forall in Hx. apply Hx. apply in_or_app. now right.
Qed.

Lemma StronglySorted_app_l {A : Type} (R : A -> A -> Prop) (l m : list A) :
  StronglySorted R (l ++ m) -> StronglySorted R l.
Proof.
  induction l as [|x l IH]; intros Hs; [constructor|].
  cbn [app] in Hs. apply StronglySorted_inv in Hs as [Hs Hx].
  constructor; [now apply IH|].
  apply Forall_forall. intros y Hy. rewrite Forall_forall in Hx.
  apply Hx. apply in_or_app. now left.
Qed.

(** With four cards selected, the loop of [complete_hand] adds the first card
    of the source that is not selected, if there is one. *)
Lemma complete_loop_first (src cs : list Card.t) :
  length cs = 4 ->
  (HandEvaluator.complete_loop src cs = cs
   /\ forall x, In x src -> card_in x cs = true)
  \/ exists pre c post,
       src = pre ++ c :: post
       /\ HandEvaluator.complete_loop src cs = cs ++ [c]
       /\ (forall x, In x pre -> card_in x cs = true)
       /\ card_in c cs = false.
Proof.
  intros Hlen. induction src as [|c src IH]; cbn [HandEvaluator.complete_loop].
  - left. split; [reflexivity | intros x []].
  - destruct (card_in c cs) eqn:Hc; cbn [negb].
    + destruct IH as [[Heq Hall]|(pre & k & post & -> & Heq & Hpre & Hk)].
      * left. split; [assumption|]. intros x [<-|Hx]; auto.
      * right. exists (c :: pre), k, post. split; [reflexivity|].
        split; [assumption|]. split; [|assumption]. intros x [<-|Hx]; auto.
    + right. exists [], c, src. rewrite length_app, Hlen. cbn.
      repeat split; [intros x [] | assumption].
Qed.

(** X12.  When [evaluate] reports Two Pairs, the hand holds exactly two cards of
    each of two values; the selection is the two pairs followed by at most
    one more card, of a third value, and no card of a third value is higher
    than that one. *)
Theorem two_pairs_selects_pairs_and_kicker (hand : list Card.t) (cs : list Card.t) :
  one_object_one_card hand ->
  evaluate_hand hand = Return (Some (two_pairs, Some cs)) ->
  exists (v0 v1 : ascii) (kicker : list Card.t),
    v0 <> v1
    /\ length (filter (fun c => Ascii.eqb (Card.value c) v0) hand) = 2
    /\ length (filter (fun c => Ascii.eqb (Card.value c) v1) hand) = 2
    /\ cs = filter (fun c => Ascii.eqb (Card.value c) v0) hand
            ++ filter (fun c => Ascii.eqb (Card.value c) v1) hand
            ++ kicker
    /\ length kicker <= 1
    /\ (forall k, In k kicker ->
          In k hand /\ Card.value k <> v0 /\ Card.value k <> v1
          /\ forall d, In d hand -> Card.value d <> v0 -> Card.value d <> v1 ->
                       (Card.sort_key d <= Card.sort_key k)%Z)
    /\ (kicker = [] -> length hand = 4).
Proof.
  intros Hone H.
  destruct (evaluate_hand_found _ H) as (Hvalid & s & s' & Hviews & Hx & Hcards).
  cbn [HandEvaluator.extract_rank] in Hx. unfold HandEvaluator.extract_two_pairs in Hx.
  destruct (groups_of_views Hvalid Hviews) as (vs & Hg & Hnd & _ & Hperm).
  rewrite Hg in Hx. clear Hg.
  destruct vs as [|v0 vs]; cbn [map list_index nth_error bind] in Hx; [discriminate|].
  destruct (length (select Card.value v0 hand) =? 2)%nat eqn:H0;
    cbn [bind] in Hx; [|discriminate].
  destruct vs as [|v1 vs]; cbn [map list_index nth_error bind] in Hx; [discriminate|].
  destruct (length (select Card.value v1 hand) =? 2)%nat eqn:H1;
    cbn [bind HandEvaluator.complete_hand HandEvaluator.cards
         HandEvaluator.set_cards HandEvaluator.sorted_by_value] in Hx; [|discriminate].
  injection Hx as <-. cbn [HandEvaluator.cards HandEvaluator.set_cards] in Hcards.
  injection Hcards as ->. rewrite (views_sorted Hviews).
  apply Nat.eqb_eq in H0, H1. cbn [map concat] in Hperm.
  set (F0 := select Card.value v0 hand) in *.
  set (F1 := select Card.value v1 hand) in *.
  assert (Hv01 : v0 <> v1).
  { inversion Hnd as [|? ? Hnotin _]; subst. intros ->. apply Hnotin. now left. }
  assert (Hpairs : forall d, In d hand -> In d (F0 ++ F1) <->
                     (Card.value d = v0 \/ Card.value d = v1)).
  { intros d Hd. rewrite in_app_iff. unfold F0, F1, select. rewrite !filter_In.
    rewrite !Ascii.eqb_eq. tauto. }
  assert (Hsel : forall d, In d hand -> card_in d (F0 ++ F1) = true ->
                           Card.value d = v0 \/ Card.value d = v1).
  { intros d Hd Hin. apply card_in_oid in Hin as (e & He & Hoid).
    assert (Heh : In e hand).
    { apply in_app_or in He as [He|He]; now apply select_incl in He. }
    rewrite <- (Hone e d Heh Hd Hoid). now apply Hpairs. }
  assert (Hsorted : forall d, In d (sort_by_value hand) <-> In d hand).
  { intros d. split; apply Permutation_in;
      [|apply Permutation_sym]; apply sort_reverse_perm. }
  exists v0, v1.
  destruct (@complete_loop_first (sort_by_value hand) (F0 ++ F1))
    as [[Heq Hall]|(pre & k & post & Hsrc & Heq & Hpre & Hk)].
  { rewrite length_app. lia. }
  - exists []. rewrite Heq, app_nil_r.
    do 4 (split; [assumption || reflexivity|]). split; [cbn; lia|].
    split; [intros k []|]. intros _.
    apply Permutation_length in Hperm. rewrite !length_app in Hperm.
    destruct (concat (map (fun v => select Card.value v hand) vs)) as [|r rest] eqn:Hrest;
      [cbn in Hperm; lia|].
    exfalso.
    assert (Hr : In r (concat (map (fun v => select Card.value v hand) vs)))
      by (rewrite Hrest; now left).
    pose proof (@later_cluster_new hand Hone v0 v1 vs r Hnd Hr) as Hnew.
    apply clusters_In in Hr as [Hrh _].
    fold F0 F1 in Hnew. rewrite Hall in Hnew; [discriminate|]. now apply Hsorted.
  - exists [k]. rewrite Heq, <- app_assoc.
    do 4 (split; [assumption || reflexivity|]). split; [cbn; lia|].
    split; [|discriminate].
    intros k' [<-|[]].
    assert (Hkh : In k hand).
    { apply Hsorted. rewrite Hsrc. apply in_or_app. right. now left. }
    assert (Hknot : ~ In k (F0 ++ F1)).
    { intros Hin. apply card_in_In in Hin. congruence. }
    split; [assumption|].
    split; [intros Hv; apply Hknot, (Hpairs k Hkh); now left|].
    split; [intros Hv; apply Hknot, (Hpairs k Hkh); now right|].
    intros d Hd Hd0 Hd1.
    assert (Hds : In d (pre ++ k :: post)) by (rewrite <- Hsrc; now apply Hsorted).
    apply in_app_or in Hds as [Hds|[<-|Hds]].
    + destruct (Hsel d Hd (Hpre d Hds)); contradiction.
    + lia.
    + pose proof (sort_by_value_descending hand) as Hdesc. rewrite Hsrc in Hdesc.
      apply (@StronglySorted_app_cross _
               (fun c d => (Card.sort_key d <= Card.sort_key c)%Z)
               (pre ++ [k]) post).
      * now rewrite <- app_assoc.
      * apply in_or_app. right. now left.
      * assumption.
Qed.

Lemma two_pairs_hand_pairs_and_kicker :
  exists (v0 v1 : ascii) (kicker : list Card.t),
    v0 <> v1
    /\ length (filter (fun c => Ascii.eqb (Card.value c) v0) two_pairs_hand) = 2
    /\ length (filter (fun c => Ascii.eqb (Card.value c) v1) two_pairs_hand) = 2
    /\ [ Card.make 2 "6" "S"; Card.make 3 "6" "D"; Card.make 0 "2" "S";
         Card.make 1 "2" "D"; Card.make 5 "Q" "D" ]
       = filter (fun c => Ascii.eqb (Card.value c) v0) two_pairs_hand
         ++ filter (fun c => Ascii.eqb (Card.value c) v1) two_pairs_hand
         ++ kicker
    /\ length kicker <= 1
    /\ (forall k, In k kicker ->
          In k two_pairs_hand /\ Card.value k <> v0 /\ Card.value k <> v1
          /\ forall d, In d two_pairs_hand -> Card.value d <> v0 -> Card.value d <> v1 ->
                       (Card.sort_key d <= Card.sort_key k)%Z)
    /\ (kicker = [] -> length two_pairs_hand = 4).
Proof.
  apply two_pairs_selects_pairs_and_kicker.
  - apply distinct_objects. simpl.
    repeat (constructor; [simpl; intuition discriminate|]). constructor.
  - vm_compute. reflexivity.
Defined.

(** *** High Card *)

(** X13.  When [evaluate] reports a High Card, the selection is the first five cards
    of the hand sorted by value: in descending order, and no card left out
    is higher than a selected one. *)
Theorem high_card_selects_the_highest (hand : list Card.t) (cs : list Card.t) :
  evaluate_hand hand = Return (Some (high_card, Some cs)) ->
  cs = firstn 5 (sort_by_value hand)
  /\ StronglySorted (fun c d => (Card.sort_key d <= Card.sort_key c)%Z) cs
  /\ Permutation (cs ++ skipn 5 (sort_by_value hand)) hand
  /\ forall c d, In c cs -> In d (skipn 5 (sort_by_value hand)) ->
                 (Card.sort_key d <= Card.sort_key c)%Z.
Proof.
  intros H.
  destruct (evaluate_hand_found _ H) as (_ & s & s' & Hviews & Hx & Hcards).
  cbn [HandEvaluator.extract_rank] in Hx. unfold HandEvaluator.extract_high_card in Hx.
  injection Hx as <-. cbn [HandEvaluator.cards HandEvaluator.set_cards] in Hcards.
  injection Hcards as ->. rewrite (views_sorted Hviews).
  pose proof (sort_by_value_descending hand) as Hdesc.
  rewrite <- (firstn_skipn 5 (sort_by_value hand)) in Hdesc.
  split; [reflexivity|]. split.
  { exact (StronglySorted_app_l _ _ Hdesc). }
  split.
  { change (Permutation (firstn 5 (sort_by_value hand) ++ skipn 5 (sort_by_value hand)) hand).
    rewrite firstn_skipn. apply sort_reverse_perm. }
  intros c d Hc Hd.
  exact (@StronglySorted_app_cross _
           (fun c d => (Card.sort_key d <= Card.sort_key c)%Z) _ _ Hdesc c d Hc Hd).
Qed.

Lemma high_card_hand_selects_the_highest :
  let cs := [ Card.make 6 "K" "H"; Card.make 5 "J" "D"; Card.make 3 "T" "C";
              Card.make 2 "9" "H"; Card.make 1 "7" "D" ] in
  cs = firstn 5 (sort_by_value high_card_hand)
  /\ StronglySorted (fun c d => (Card.sort_key d <= Card.sort_key c)%Z) cs
  /\ Permutation (cs ++ skipn 5 (sort_by_value high_card_hand)) high_card_hand
  /\ forall c d, In c cs -> In d (skipn 5 (sort_by_value high_card_hand)) ->
                 (Card.sort_key d <= Card.sort_key c)%Z.
Proof.
  intros cs. apply high_card_selects_the_highest. vm_compute. reflexivity.
Defined.

(** ** The order of the keys *)

Lemma list_lt_irrefl (a : list Z) : list_lt a a = false.
Proof.
  induction a as [|x a IH]; cbn [list_lt]; [reflexivity|].
  now rewrite Z.eqb_refl.
Qed.

Lemma list_lt_asym (a b : list Z) : list_lt a b = true -> list_lt b a = false.
Proof.
  revert b. induction a as [|x a IH]; intros [|y b]; cbn [list_lt];
    try congruence.
  destruct (Z.eqb_spec x y) as [->|Hne].
  - rewrite Z.eqb_refl. apply IH.
  - destruct (Z.eqb_spec y x) as [->|_]; [contradiction|].
    intros H. apply Z.ltb_lt in H. apply Z.ltb_ge. lia.
Qed.

Lemma list_lt_negtrans (a b c : list Z) :
  list_lt a b = false -> list_lt b c = false -> list_lt a c = false.
Proof.
  revert b c. induction a as [|x a IH]; intros [|y b] [|z c]; cbn [list_lt];
    try congruence.
  destruct (Z.eqb_spec x y), (Z.eqb_spec y z), (Z.eqb_spec x z); subst;
    try contradiction; try (now apply IH); intros H1 H2; try assumption;
    try (apply Z.ltb_ge in H1); try (apply Z.ltb_ge in H2); try (apply Z.ltb_ge);
    first [lia | exfalso; lia].
Qed.

Lemma list_lt_total (a b : list Z) :
  list_lt a b = false -> list_lt b a = false -> a = b.
Proof.
  revert b. induction a as [|x a IH]; intros [|y b]; cbn [list_lt];
    try congruence.
  destruct (Z.eqb_spec x y) as [->|Hne].
  - rewrite Z.eqb_refl. intros H1 H2. f_equal. now apply IH.
  - destruct (Z.eqb_spec y x) as [->|_]; [contradiction|].
    intros H1 H2. apply Z.ltb_ge in H1, H2. lia.
Qed.

Lemma list_eqb_eq (a b : list Z) : list_eqb a b = true <-> a = b.
Proof.
  unfold list_eqb. destruct (list_eq_dec Z.eq_dec a b); split; congruence.
Qed.

Lemma key_eqb_eq (a b : Z * list Z) : key_eqb a b = true <-> a = b.
Proof.
  unfold key_eqb. destruct a as [r l], b as [r' l']. cbn [fst snd].
  rewrite andb_true_iff, Z.eqb_eq, list_eqb_eq. split; [intros [-> ->] | intros [= -> ->]]; auto.
Qed.

Lemma key_lt_irrefl (a : Z * list Z) : key_lt a a = false.
Proof. unfold key_lt. rewrite Z.eqb_refl. apply list_lt_irrefl. Qed.

Lemma key_lt_asym (a b : Z * list Z) : key_lt a b = true -> key_lt b a = false.
Proof.
  unfold key_lt. destruct (Z.eqb_spec (fst a) (fst b)) as [Heq|Hne].
  - rewrite Heq, Z.eqb_refl. apply list_lt_asym.
  - destruct (Z.eqb_spec (fst b) (fst a)); [congruence|].
    intros H. apply Z.ltb_lt in H. apply Z.ltb_ge. lia.
Qed.

Lemma key_lt_negtrans (a b c : Z * list Z) :
  key_lt a b = false -> key_lt b c = false -> key_lt a c = false.
Proof.
  unfold key_lt.
  destruct (Z.eqb_spec (fst a) (fst b)) as [Hab|Hab],
           (Z.eqb_spec (fst b) (fst c)) as [Hbc|Hbc].
  - rewrite Hab, Hbc, Z.eqb_refl. apply list_lt_negtrans.
  - destruct (Z.eqb_spec (fst a) (fst c)); [congruence|]. rewrite Hab. auto.
  - destruct (Z.eqb_spec (fst a) (fst c)); [congruence|]. rewrite <- Hbc. auto.
  - intros H1 H2. apply Z.ltb_ge in H1, H2.
    destruct (Z.eqb_spec (fst a) (fst c)); [lia|]. apply Z.ltb_ge. lia.
Qed.

Lemma key_lt_total (a b : Z * list Z) :
  key_lt a b = false -> key_lt b a = false -> a = b.
Proof.
  unfold key_lt. destruct a as [r l], b as [r' l']. cbn [fst snd].
  destruct (Z.eqb_spec r r') as [->|Hne].
  - rewrite Z.eqb_refl. intros H1 H2. f_equal. now apply list_lt_total.
  - destruct (Z.eqb_spec r' r); [congruence|].
    intros H1 H2. apply Z.ltb_ge in H1, H2. lia.
Qed.

Lemma entry_lt_asym (a b : (Z * list Z) * nat) :
  entry_lt a b = true -> entry_lt b a = false.
Proof.
  unfold entry_lt. destruct (key_eqb (fst a) (fst b)) eqn:Hab.
  - apply key_eqb_eq in Hab. rewrite Hab.
    rewrite (proj2 (key_eqb_eq (fst b) (fst b)) eq_refl).
    intros H. apply Nat.ltb_lt in H. apply Nat.ltb_ge. lia.
  - destruct (key_eqb (fst b) (fst a)) eqn:Hba.
    + apply key_eqb_eq in Hba. rewrite Hba in Hab.
      now rewrite (proj2 (key_eqb_eq (fst a) (fst a)) eq_refl) in Hab.
    + apply key_lt_asym.
Qed.

Lemma entry_lt_negtrans (a b c : (Z * list Z) * nat) :
  entry_lt a b = false -> entry_lt b c = false -> entry_lt a c = false.
Proof.
  assert (Hrefl : forall k, key_eqb k k = true) by (intros k; now apply key_eqb_eq).
  assert (Hneq : forall k k', key_eqb k k' = false -> k <> k').
  { intros k k' H ->. now rewrite Hrefl in H. }
  unfold entry_lt.
  destruct (key_eqb (fst a) (fst b)) eqn:Hab; destruct (key_eqb (fst b) (fst c)) eqn:Hbc.
  - apply key_eqb_eq in Hab, Hbc. rewrite Hab, Hbc, Hrefl.
    intros H1 H2. apply Nat.ltb_ge in H1, H2. apply Nat.ltb_ge. lia.
  - apply key_eqb_eq in Hab. rewrite Hab, Hbc. auto.
  - apply key_eqb_eq in Hbc. rewrite <- Hbc, Hab. auto.
  - intros H1 H2. pose proof (key_lt_negtrans _ _ _ H1 H2) as H3.
    destruct (key_eqb (fst a) (fst c)) eqn:Hac; [|assumption].
    apply key_eqb_eq in Hac. rewrite Hac in H1.
    elim (Hneq _ _ Hbc). symmetry. now apply key_lt_total.
Qed.

(** ** find_winners *)

Lemma mapM_Forall2 {A B : Type} (f : A -> result B) (l : list A) (ys : list B) :
  mapM f l = Return ys -> Forall2 (fun x y => f x = Return y) l ys.
Proof.
  revert ys. induction l as [|x l IH]; intros ys; cbn [mapM].
  - intros [= <-]. constructor.
  - destruct (f x) as [y|] eqn:Hy; cbn [bind]; [|discriminate].
    destruct (mapM f l) as [ys'|]; cbn [bind]; [|discriminate].
    intros [= <-]. constructor; [assumption | now apply IH].
Qed.

Lemma Forall2_In_l {A B : Type} (R : A -> B -> Prop) (l : list A) (m : list B) (x : A) :
  Forall2 R l m -> In x l -> exists y, In y m /\ R x y.
Proof.
  induction 1 as [|a b l m Hab _ IH]; intros Hx; [contradiction|].
  destruct Hx as [<-|Hx].
  - exists b. split; [now left | assumption].
  - destruct (IH Hx) as (y & Hy & HR). exists y. split; [now right | assumption].
Qed.

Lemma Forall2_In_r {A B : Type} (R : A -> B -> Prop) (l : list A) (m : list B) (y : B) :
  Forall2 R l m -> In y m -> exists x, In x l /\ R x y.
Proof.
  induction 1 as [|a b l m Hab _ IH]; intros Hy; [contradiction|].
  destruct Hy as [<-|Hy].
  - exists a. split; [now left | assumption].
  - destruct (IH Hy) as (x & Hx & HR). exists x. split; [now right | assumption].
Qed.

(** [enumerate]: the pairs of a position and the element at that position. *)
Lemma In_enumerate {A : Type} (l : list A) :
  forall (a j : nat) (x : A),
    In (j, x) (combine (seq a (length l)) l) <->
    a <= j /\ nth_error l (j - a) = Some x.
Proof.
  induction l as [|y l IH]; intros a j x; cbn [length seq combine].
  - split; [intros [] | intros [_ H]]. now destruct (j - a).
  - cbn [In]. rewrite IH. split.
    + intros [[= <- <-]|[Hle Hnth]].
      * rewrite Nat.sub_diag. split; [lia | reflexivity].
      * split; [lia|]. replace (j - a) with (S (j - S a)) by lia. exact Hnth.
    + intros [Hle Hnth]. destruct (j - a) as [|n] eqn:Hj.
      * left. injection Hnth as ->. f_equal. lia.
      * right. split; [lia|]. replace (j - S a) with n by lia. exact Hnth.
Qed.

Lemma hand_key_entry (j : nat) (h : list Card.t) (e : (Z * list Z) * nat) :
  (key <- hand_key h ;; Return (key, j)) = Return e ->
  hand_key h = Return (fst e) /\ snd e = j.
Proof.
  destruct (hand_key h) as [k|]; cbn [bind]; [|discriminate].
  intros [= <-]. split; reflexivity.
Qed.

(** X14.  find_winners returns one index: that of a hand whose key no other hand's
    key exceeds, and among the hands with this key the last one. *)
Theorem find_winners_picks_last_maximal_hand (hands : list (list Card.t)) (winners : list nat) :
  find_winners hands = Return winners ->
  exists (idx : nat) (h : list Card.t) (key : Z * list Z),
    winners = [idx]
    /\ nth_error hands idx = Some h
    /\ hand_key h = Return key
    /\ forall (j : nat) (hj : list Card.t) (kj : Z * list Z),
         nth_error hands j = Some hj -> hand_key hj = Return kj ->
         key_lt key kj = false /\ (kj = key -> j <= idx).
Proof.
  unfold find_winners.
  destruct (mapM _ (combine (seq 0 (length hands)) hands)) as [hands_ranks|] eqn:Hm;
    cbn [bind]; [|discriminate].
  apply mapM_Forall2 in Hm.
  destruct (sort_reverse entry_lt hands_ranks) as [|first rest] eqn:Hsort;
    cbn [bind list_index nth_error skipn]; [discriminate|].
  intros [= <-].
  assert (Hfirst : In first hands_ranks).
  { apply (Permutation_in _ (sort_reverse_perm entry_lt hands_ranks)).
    rewrite Hsort. now left. }
  destruct (Forall2_In_r _ Hm Hfirst) as ([j0 h0] & Hin0 & Hf0).
  apply hand_key_entry in Hf0 as [Hk0 Hj0].
  apply In_enumerate in Hin0 as [_ Hn0]. rewrite Nat.sub_0_r in Hn0.
  exists (snd first), h0, (fst first). split.
  { destruct rest as [|[key idx] rest]; cbn [winners_loop]; [reflexivity|].
    now rewrite key_never_equals_entry. }
  split; [now rewrite Hj0|]. split; [assumption|].
  intros j hj kj Hnj Hkj.
  assert (Hinj : In (j, hj) (combine (seq 0 (length hands)) hands)).
  { apply In_enumerate. rewrite Nat.sub_0_r. split; [lia | assumption]. }
  destruct (Forall2_In_l _ Hm Hinj) as (e & He & Hfe).
  cbv beta iota in Hfe. rewrite Hkj in Hfe. cbn [bind] in Hfe. injection Hfe as <-.
  pose proof (@sort_reverse_head _ entry_lt (@entry_lt_asym) (@entry_lt_negtrans)
                hands_ranks first rest Hsort _ He) as Hmax.
  unfold entry_lt in Hmax. cbn [fst snd] in Hmax.
  destruct (key_eqb (fst first) kj) eqn:Heq.
  - apply key_eqb_eq in Heq. subst kj. split; [apply key_lt_irrefl|].
    intros _. apply Nat.ltb_ge in Hmax. lia.
  - split; [assumption|]. intros ->.
    now rewrite (proj2 (key_eqb_eq (fst first) (fst first)) eq_refl) in Heq.
Qed.

Lemma find_winners_full_house_beats_two_pairs :
  exists (idx : nat) (h : list Card.t) (key : Z * list Z),
    [1] = [idx]
    /\ nth_error [two_pairs_hand; full_house_hand; high_card_hand] idx = Some h
    /\ hand_key h = Return key
    /\ forall (j : nat) (hj : list Card.t) (kj : Z * list Z),
         nth_error [two_pairs_hand; full_house_hand; high_card_hand] j = Some hj ->
         hand_key hj = Return kj ->
         key_lt key kj = false /\ (kj = key -> j <= idx).
Proof.
  apply find_winners_picks_last_maximal_hand. vm_compute. reflexivity.
Defined.

(** X15.  An exception of [hand_key] leaves [find_winners] as it is: that of the
    first hand, in the order of the input, whose key cannot be computed. *)
Theorem find_winners_raises_first_error (pre post : list (list Card.t))
    (h : list Card.t) (e : exn) :
  Forall (fun x => exists key, hand_key x = Return key) pre ->
  hand_key h = Raise e ->
  find_winners (pre ++ h :: post) = Raise e.
Proof.
  intros Hpre Hh. unfold find_winners.
  assert (Hm : forall a,
             mapM (fun '(idx, hand) => key <- hand_key hand ;; Return (key, idx))
                  (combine (seq a (length (pre ++ h :: post))) (pre ++ h :: post))
             = Raise e).
  { induction Hpre as [|p pre [key Hp] _ IH]; intros a;
      cbn [app length seq combine mapM].
    - now rewrite Hh.
    - rewrite Hp. cbn [bind]. now rewrite IH. }
  now rewrite Hm.
Qed.

Lemma find_winners_empty_hand_raises :
  find_winners ([full_house_hand] ++ [] :: [high_card_hand]) = Raise IndexError.
Proof.
  apply find_winners_raises_first_error.
  - constructor; [|constructor]. eexists. vm_compute. reflexivity.
  - reflexivity.
Defined.

(** *** Hands of at least five cards *)

Lemma sort_key_range (c : Card.t) :
  char_in (Card.value c) VALUES = true -> (0 <= Card.sort_key c <= 12)%Z.
Proof.
  intros H. unfold Card.sort_key, str_find.
  destruct (find_from_present (Card.value c) (list_ascii_of_string VALUES) 0 H)
    as [Hrange _].
  change (length (list_ascii_of_string VALUES)) with 13%nat in Hrange. lia.
Qed.

Lemma hand_key_returns (hand : list Card.t) :
  Forall valid_card hand ->
  one_object_one_card hand ->
  5 <= length hand ->
  exists (rank : Z) (card_keys : list Z),
    hand_key hand = Return (rank, card_keys)
    /\ (1 <= rank <= 10)%Z
    /\ length card_keys = 5
    /\ Forall (fun k => (0 <= k <= 12)%Z) card_keys.
Proof.
  intros Hvalid Hone Hlen. unfold hand_key.
  pose proof (evaluate_hand_ok Hvalid Hone) as Hok.
  destruct (evaluate_hand hand) as [[[rank [cs|]]|]|e]; cbn [evaluate_ok] in Hok;
    try contradiction; [|destruct Hok; lia].
  destruct Hok as [Hfive [rest Hperm]]. cbn [bind].
  assert (Hidx : exists i, index_from rank RANKS 0 = Return i /\ (0 <= i <= 9)%Z).
  { destruct rank; eexists; (split; [reflexivity | lia]). }
  destruct Hidx as (i & -> & Hi). cbn [bind].
  eexists _, _. split; [reflexivity|].
  change (Z.of_nat (length RANKS)) with 10%Z. split; [lia|]. split.
  - rewrite length_map. lia.
  - apply Forall_forall. intros k Hk. apply in_map_iff in Hk as (c & <- & Hc).
    apply sort_key_range.
    assert (Hch : In c hand).
    { apply (Permutation_in _ Hperm). apply in_or_app. now left. }
    rewrite Forall_forall in Hvalid. now destruct (Hvalid c Hch).
Qed.

(** X16.  hand_key on a hand of at least five cards: a rank number from 1 to 10
    and the keys of five cards, each from 0 to 12. *)
Theorem hand_key_of_full_hand (hand : list Card.t) :
  Forall valid_card hand ->
  one_object_one_card hand ->
  5 <= length hand ->
  exists (rank : Z) (card_keys : list Z),
    hand_key hand = Return (rank, card_keys)
    /\ (1 <= rank <= 10)%Z
    /\ length card_keys = 5
    /\ Forall (fun k => (0 <= k <= 12)%Z) card_keys.
Proof. apply hand_key_returns. Qed.

Lemma hand_key_of_full_house_hand :
  exists (rank : Z) (card_keys : list Z),
    hand_key full_house_hand = Return (rank, card_keys)
    /\ (1 <= rank <= 10)%Z
    /\ length card_keys = 5
    /\ Forall (fun k => (0 <= k <= 12)%Z) card_keys.
Proof.
  apply hand_key_of_full_hand.
  - repeat constructor.
  - apply distinct_objects. simpl.
    repeat (constructor; [simpl; intuition discriminate|]). constructor.
  - simpl. lia.
Defined.

Lemma mapM_returns {A B : Type} (f : A -> result B) (l : list A) :
  Forall (fun x => exists y, f x = Return y) l ->
  exists ys, mapM f l = Return ys /\ length ys = length l.
Proof.
  induction 1 as [|x l [y Hy] _ (ys & IH & Hlen)]; cbn [mapM].
  - now exists [].
  - rewrite Hy, IH. cbn [bind]. exists (y :: ys). cbn [length]. auto.
Qed.

(** X17.  On a non-empty sequence of hands of at least five cards each,
    find_winners returns one index of the sequence. *)
Theorem find_winners_returns_for_full_hands (hands : list (list Card.t)) :
  hands <> [] ->
  Forall (fun h => Forall valid_card h /\ one_object_one_card h /\ 5 <= length h) hands ->
  exists idx, find_winners hands = Return [idx] /\ idx < length hands.
Proof.
  intros Hne Hall. unfold find_winners.
  destruct (@mapM_returns _ _
              (fun '(idx, hand) => key <- hand_key hand ;; Return (key, idx))
              (combine (seq 0 (length hands)) hands))
    as (hands_ranks & Hm & Hlen).
  { apply Forall_forall. intros [j h] Hin. apply in_combine_r in Hin.
    rewrite Forall_forall in Hall. destruct (Hall h Hin) as (Hv & Ho & Hl).
    destruct (hand_key_returns Hv Ho Hl) as (rank & keys & -> & _).
    cbn [bind]. eexists. reflexivity. }
  rewrite Hm. cbn [bind]. apply mapM_Forall2 in Hm.
  pose proof (sort_reverse_perm entry_lt hands_ranks) as Hperm.
  destruct (sort_reverse entry_lt hands_ranks) as [|first rest] eqn:Hsort.
  { apply Permutation_nil in Hperm. subst hands_ranks.
    rewrite length_combine, length_seq, Nat.min_id in Hlen.
    destruct hands; [contradiction | discriminate]. }
  cbn [bind list_index nth_error skipn]. exists (snd first). split.
  - f_equal. destruct rest as [|[key idx] rest]; cbn [winners_loop]; [reflexivity|].
    now rewrite key_never_equals_entry.
  - assert (Hfirst : In first hands_ranks).
    { apply (Permutation_in _ Hperm). now left. }
    destruct (Forall2_In_r _ Hm Hfirst) as ([j0 h0] & Hin0 & Hf0).
    apply hand_key_entry in Hf0 as [_ ->].
    apply In_enumerate in Hin0 as [_ Hn0]. rewrite Nat.sub_0_r in Hn0.
    apply nth_error_Some. congruence.
Qed.

Lemma find_winners_returns_for_three_hands :
  exists idx,
    find_winners [two_pairs_hand; full_house_hand; high_card_hand] = Return [idx]
    /\ idx < length [two_pairs_hand; full_house_hand; high_card_hand].
Proof.
  apply find_winners_returns_for_full_hands; [discriminate|].
  repeat constructor;
    try (apply distinct_objects; simpl;
         repeat (constructor; [simpl; intuition discriminate|]); constructor).
Defined.

(** ** all_same_suit *)

(** X18.  all_same_suit holds exactly when any two cards of the collection have the
    same suit; in particular for the empty collection. *)
Theorem all_same_suit_iff (card_set : list Card.t) :
  all_same_suit card_set = true <->
  forall c d, In c card_set -> In d card_set -> Card.suit c = Card.suit d.
Proof.
  destruct card_set as [|c0 rest]; cbn [all_same_suit].
  - split; [intros _ c d [] | reflexivity].
  - rewrite forallb_forall. split.
    + intros Hall c d Hc Hd.
      assert (Hsuit : forall x, In x (c0 :: rest) -> Card.suit x = Card.suit c0).
      { intros x [<-|Hx]; [reflexivity|]. now apply Ascii.eqb_eq, Hall. }
      now rewrite (Hsuit c Hc), (Hsuit d Hd).
    + intros Hall x Hx. apply Ascii.eqb_eq. apply Hall; [now right | now left].
Qed.

(** ** into_hand *)

Lemma append_nil_r (s : string) : String.append s EmptyString = s.
Proof. induction s as [|c s IH]; cbn; [reflexivity | now rewrite IH]. Qed.

Lemma append_assoc (a b c : string) :
  String.append (String.append a b) c = String.append a (String.append b c).
Proof. induction a as [|x a IH]; cbn; [reflexivity | now rewrite IH]. Qed.

Lemma split_loop_word (w : string) :
  forallb (fun c => negb (is_space c)) (list_ascii_of_string w) = true ->
  forall s word,
    split_loop (String.append w s) word = split_loop s (String.append word w).
Proof.
  induction w as [|c w IH]; intros Hw s word.
  - cbn [String.append]. now rewrite append_nil_r.
  - cbn [list_ascii_of_string forallb] in Hw. apply andb_prop in Hw as [Hc Hw].
    apply negb_true_iff in Hc. cbn [String.append split_loop]. rewrite Hc.
    rewrite (IH Hw), append_assoc. reflexivity.
Qed.

Lemma space_is_space : is_space " " = true.
Proof. reflexivity. Qed.

Lemma str_split_concat (codes : list string) :
  Forall token codes -> str_split (String.concat " " codes) = codes.
Proof.
  unfold str_split. induction 1 as [|w codes [Hne Hw] Hcodes IH]; [reflexivity|].
  destruct codes as [|w2 codes]; cbn [String.concat].
  - rewrite <- (append_nil_r w) at 1. rewrite (@split_loop_word w Hw).
    cbn [String.append split_loop]. destruct w; [contradiction | reflexivity].
  - rewrite (@split_loop_word w Hw). cbn [String.append split_loop].
    rewrite ?space_is_space. destruct w; [contradiction|]. f_equal. exact IH.
Qed.

(** X19.  into_hand undoes the joining of card codes by single spaces: it builds the
    card of each code, in order. *)
Theorem into_hand_of_joined_codes (addr : nat) (codes : list string) :
  Forall token codes ->
  into_hand addr (String.concat " " codes) = cards_of_codes addr codes.
Proof.
  intros H. unfold into_hand. now rewrite str_split_concat.
Qed.

Lemma into_hand_of_full_house_codes :
  into_hand 0 (String.concat " " ["2H"; "2D"; "2S"; "3H"; "3D"; "9C"; "4C"])
  = cards_of_codes 0 ["2H"; "2D"; "2S"; "3H"; "3D"; "9C"; "4C"].
Proof.
  apply into_hand_of_joined_codes.
  repeat constructor; discriminate.
Defined.

Lemma split_loop_tokens (s : string) :
  forall word,
    forallb (fun c => negb (is_space c)) (list_ascii_of_string word) = true ->
    Forall token (split_loop s word).
Proof.
  induction s as [|c s IH]; intros word Hword; cbn [split_loop].
  - destruct word; constructor; [|constructor]. split; [discriminate | assumption].
  - destruct (is_space c) eqn:Hc.
    + destruct word; [now apply IH|].
      constructor; [split; [discriminate | assumption] | now apply IH].
    + apply IH. clear IH. induction word as [|x word IHw]; cbn in *.
      * now rewrite Hc.
      * apply andb_prop in Hword as [Hx Hword]. rewrite Hx. now apply IHw.
Qed.

Lemma Card_init_token (addr : nat) (w : string) :
  token w ->
  (exists c, Card.init addr w = Return c)
  \/ (Card.init addr w = Raise IndexError /\ String.length w = 1)
  \/ (Card.init addr w = Raise ValueError /\ 2 <= String.length w).
Proof.
  intros [Hne _]. destruct w as [|v [|s rest]]; [contradiction| |].
  - right. left. split; reflexivity.
  - unfold Card.init, str_index. cbn [String.get bind String.length].
    destruct (char_in v VALUES); cbn [negb].
    + destruct (char_in s SUITS); cbn [negb].
      * left. eexists. reflexivity.
      * right. right. split; [reflexivity | lia].
    + right. right. split; [reflexivity | lia].
Qed.

(** X20.  A hand that into_hand returns has one valid card per word of the line,
    each a new object; when into_hand fails, it is with [IndexError] for a
    word of one character or with [ValueError] for a longer word. *)
Theorem into_hand_outcome (addr : nat) (line : string) :
  match into_hand addr line with
  | Return hand =>
      Forall valid_card hand
      /\ one_object_one_card hand
      /\ map Card.oid hand = seq addr (length (str_split line))
  | Raise e =>
      (e = IndexError /\ exists w, In w (str_split line) /\ String.length w = 1)
      \/ (e = ValueError /\ exists w, In w (str_split line) /\ 2 <= String.length w)
  end.
Proof.
  unfold into_hand.
  destruct (cards_of_codes addr (str_split line)) as [hand|e] eqn:Hrun.
  - destruct (cards_of_codes_valid _ _ Hrun) as [Hvalid Hoid].
    split; [assumption|]. split; [|assumption].
    now apply (cards_of_codes_objects _ _ Hrun).
  - pose proof (split_loop_tokens line EmptyString eq_refl) as Htok.
    fold (str_split line) in Htok. revert Hrun. unfold cards_of_codes.
    generalize addr. induction Htok as [|w ws Hw _ IH]; intros a;
      cbn [length seq combine mapM]; [discriminate|].
    destruct (Card_init_token a Hw) as [[c Hc]|[[Hc Hlen]|[Hc Hlen]]];
      rewrite Hc; cbn [bind].
    + destruct (mapM _ (combine (seq (S a) (length ws)) ws)) as [cs|e'] eqn:Hrest;
        cbn [bind]; [discriminate|].
      intros [= <-].
      destruct (IH (S a) Hrest) as [(-> & w' & Hin & Hl)|(-> & w' & Hin & Hl)].
      * left. split; [reflexivity|]. exists w'. split; [now right | assumption].
      * right. split; [reflexivity|]. exists w'. split; [now right | assumption].
    + intros [= <-]. left. split; [reflexivity|]. exists w. split; [now left | assumption].
    + intros [= <-]. right. split; [reflexivity|]. exists w. split; [now left | assumption].
Qed.

(** ** Calling evaluate again *)

Lemma straight_loop_ignores_cards (seqs : list string) (self : HandEvaluator.t)
    (cs : option (list Card.t)) :
  same_outcome (HandEvaluator.straight_loop (HandEvaluator.set_cards self cs) seqs)
               (HandEvaluator.straight_loop self seqs).
Proof.
  induction seqs as [|sequence seqs IH]; cbn [HandEvaluator.straight_loop]; [exact I|].
  change (HandEvaluator.by_value (HandEvaluator.set_cards self cs))
    with (HandEvaluator.by_value self).
  destruct (HandEvaluator.all_present _ _) as [[|]|]; cbn [bind];
    [|exact IH|reflexivity].
  destruct (HandEvaluator.first_of_each _ _) as [cards|]; cbn [bind]; reflexivity.
Qed.

Lemma extract_straight_flush_ignores_cards (self : HandEvaluator.t)
    (cs : option (list Card.t)) :
  same_outcome (HandEvaluator.extract_straight_flush (HandEvaluator.set_cards self cs))
               (HandEvaluator.extract_straight_flush self).
Proof.
  unfold HandEvaluator.extract_straight_flush, HandEvaluator.extract_straight.
  pose proof (straight_loop_ignores_cards HandEvaluator.sequences self cs) as H.
  destruct (HandEvaluator.straight_loop (HandEvaluator.set_cards self cs) _)
    as [[[|] s1]|e1];
    destruct (HandEvaluator.straight_loop self _) as [[[|] s2]|e2];
    cbn [same_outcome] in H; try contradiction; subst; cbn [bind]; try exact I;
    try reflexivity.
  destruct (HandEvaluator.cards_list s2) as [cards|]; cbn [bind]; [|reflexivity].
  destruct (all_same_suit cards); cbn [same_outcome]; auto.
Qed.

Lemma extract_royal_flush_ignores_cards (self : HandEvaluator.t)
    (cs : option (list Card.t)) :
  same_outcome (HandEvaluator.extract_royal_flush (HandEvaluator.set_cards self cs))
               (HandEvaluator.extract_royal_flush self).
Proof.
  unfold HandEvaluator.extract_royal_flush.
  pose proof (extract_straight_flush_ignores_cards self cs) as H.
  destruct (HandEvaluator.extract_straight_flush (HandEvaluator.set_cards self cs))
    as [[[|] s1]|e1];
    destruct (HandEvaluator.extract_straight_flush self) as [[[|] s2]|e2];
    cbn [same_outcome] in H; try contradiction; subst; cbn [bind]; try exact I;
    try reflexivity.
  destruct (HandEvaluator.cards_list s2) as [cards|]; cbn [bind]; [|reflexivity].
  destruct (list_index cards (length cards - 1)) as [c|]; cbn [bind]; [|reflexivity].
  destruct (Ascii.eqb (Card.value c) "T"); cbn [same_outcome]; auto.
Qed.

Lemma extract_rank_ignores_cards (self : HandEvaluator.t) (cs : option (list Card.t))
    (rank : Rank) :
  same_outcome (HandEvaluator.extract_rank (HandEvaluator.set_cards self cs) rank)
               (HandEvaluator.extract_rank self rank).
Proof.
  destruct rank; cbn [HandEvaluator.extract_rank].
  - apply extract_royal_flush_ignores_cards.
  - apply extract_straight_flush_ignores_cards.
  - unfold HandEvaluator.extract_four_of_a_kind, HandEvaluator.extract_n_of_a_kind.
    cbn [HandEvaluator.groups HandEvaluator.set_cards].
    destruct (list_index (HandEvaluator.groups self) 0) as [g|]; cbn [bind]; [|reflexivity].
    destruct (list_index g 0) as [c|]; cbn [bind]; [exact I | reflexivity].
  - unfold HandEvaluator.extract_full_house.
    cbn [HandEvaluator.groups HandEvaluator.set_cards].
    destruct (list_index (HandEvaluator.groups self) 0) as [g0|]; cbn [bind]; [|reflexivity].
    destruct (length g0 =? 3)%nat; cbn [bind]; [|exact I].
    destruct (list_index (HandEvaluator.groups self) 1) as [g1|]; cbn [bind]; [|reflexivity].
    destruct (2 <=? length g1)%nat; cbn [bind same_outcome]; [reflexivity | exact I].
  - unfold HandEvaluator.extract_flush.
    cbn [HandEvaluator.by_suit HandEvaluator.set_cards].
    destruct (filter _ (map snd (HandEvaluator.by_suit self))) as [|x0 fl]; [exact I|].
    destruct (mapM _ (x0 :: fl)) as [keyed|]; cbn [bind]; [|reflexivity].
    destruct (list_index _ 0) as [cards|]; cbn [bind]; reflexivity.
  - apply straight_loop_ignores_cards.
  - unfold HandEvaluator.extract_three_of_a_kind, HandEvaluator.extract_n_of_a_kind.
    cbn [HandEvaluator.groups HandEvaluator.set_cards].
    destruct (list_index (HandEvaluator.groups self) 0) as [g|]; cbn [bind]; [|reflexivity].
    destruct (list_index g 0) as [c|]; cbn [bind]; [exact I | reflexivity].
  - unfold HandEvaluator.extract_two_pairs.
    cbn [HandEvaluator.groups HandEvaluator.set_cards].
    destruct (list_index (HandEvaluator.groups self) 0) as [g0|]; cbn [bind]; [|reflexivity].
    destruct (length g0 =? 2)%nat; cbn [bind]; [|exact I].
    destruct (list_index (HandEvaluator.groups self) 1) as [g1|]; cbn [bind]; [|reflexivity].
    destruct (length g1 =? 2)%nat; cbn [bind same_outcome]; [reflexivity | exact I].
  - unfold HandEvaluator.extract_pair, HandEvaluator.extract_n_of_a_kind.
    cbn [HandEvaluator.groups HandEvaluator.set_cards].
    destruct (list_index (HandEvaluator.groups self) 0) as [g|]; cbn [bind]; [|reflexivity].
    destruct (list_index g 0) as [c|]; cbn [bind]; [exact I | reflexivity].
  - reflexivity.
Qed.

Lemma evaluate_loop_ignores_cards (ranks : list Rank) :
  In high_card ranks ->
  forall (self : HandEvaluator.t) (cs : option (list Card.t)),
    HandEvaluator.evaluate_loop (HandEvaluator.set_cards self cs) ranks
    = HandEvaluator.evaluate_loop self ranks.
Proof.
  induction ranks as [|rank ranks IH]; intros Hin self cs; [contradiction|].
  cbn [HandEvaluator.evaluate_loop].
  pose proof (extract_rank_ignores_cards self cs rank) as Hsame.
  destruct (HandEvaluator.extract_rank (HandEvaluator.set_cards self cs) rank)
    as [[[|] s1]|e1] eqn:H1;
    destruct (HandEvaluator.extract_rank self rank) as [[[|] s2]|e2] eqn:H2;
    cbn [same_outcome] in Hsame; try contradiction; subst; cbn [bind];
    try reflexivity.
  destruct Hin as [->|Hin]; [discriminate H2|].
  destruct (extract_rank_frame _ _ H1) as [Hocc1 _].
  destruct (extract_rank_frame _ _ H2) as [Hocc2 _].
  rewrite Hocc1, Hocc2. cbn [HandEvaluator.set_cards HandEvaluator.hand
    HandEvaluator.sorted_by_value HandEvaluator.by_suit HandEvaluator.by_value
    HandEvaluator.groups].
  rewrite (IH Hin self (HandEvaluator.cards s2)).
  apply (IH Hin self (HandEvaluator.cards s1)).
Qed.

(** X21.  evaluate can be called again, as [hand_key] does after [__init__]: the
    second call returns what the first one returned and leaves the evaluator
    as it is. *)
Theorem evaluate_again (self self' : HandEvaluator.t)
    (r : option (Rank * option (list Card.t))) :
  HandEvaluator.evaluate self = Return (r, self') ->
  HandEvaluator.evaluate self' = Return (r, self').
Proof.
  unfold HandEvaluator.evaluate. intros H.
  destruct (evaluate_loop_found _ _ H) as [Hocc _].
  unfold only_cards_change in Hocc.
  transitivity (HandEvaluator.evaluate_loop
                  (HandEvaluator.set_cards self (HandEvaluator.cards self')) RANKS).
  { now rewrite <- Hocc. }
  rewrite evaluate_loop_ignores_cards; [exact H|].
  unfold RANKS. simpl. tauto.
Qed.

Lemma evaluate_again_full_house_hand :
  HandEvaluator.evaluate (evaluator_of full_house_hand)
  = Return (Some (full_house, Some (firstn 5 full_house_hand)),
            evaluator_of full_house_hand).
Proof.
  apply (@evaluate_again
           (HandEvaluator.set_cards (evaluator_of full_house_hand) None)).
  vm_compute. reflexivity.
Defined.

(** ** Ranks that are not missed *)

Lemma evaluate_loop_skipped (ranks : list Rank) :
  forall (self self' : HandEvaluator.t) (rank : Rank) (ocs : option (list Card.t)),
    HandEvaluator.evaluate_loop self ranks = Return (Some (rank, ocs), self') ->
    exists pre post,
      ranks = pre ++ rank :: post
      /\ forall r, In r pre ->
           exists s s1, only_cards_change self s
                        /\ HandEvaluator.extract_rank s r = Return (false, s1).
Proof.
  induction ranks as [|r0 ranks IH]; intros self self' rank ocs;
    cbn [HandEvaluator.evaluate_loop]; [discriminate|].
  destruct (HandEvaluator.extract_rank self r0) as [[found s1]|] eqn:Hrun;
    cbn [bind]; [|discriminate].
  destruct (extract_rank_frame _ _ Hrun) as [Hocc _]. destruct found.
  - intros [= <- <- <-]. exists [], ranks. split; [reflexivity | intros r []].
  - intros Hrest. destruct (IH _ _ _ _ Hrest) as (pre & post & -> & Hpre).
    exists (r0 :: pre), post. split; [reflexivity|].
    intros r [<-|Hr].
    + exists self, s1. split; [apply only_cards_refl | assumption].
    + destruct (Hpre r Hr) as (s & s2 & Hs & Hx).
      exists s, s2. split; [now apply only_cards_trans with s1 | assumption].
Qed.

Lemma evaluate_hand_skipped (hand : list Card.t) (rank : Rank) (ocs : option (list Card.t)) :
  evaluate_hand hand = Return (Some (rank, ocs)) ->
  exists pre post,
    RANKS = pre ++ rank :: post
    /\ forall r, In r pre ->
         exists s s1, views_of hand s
                      /\ HandEvaluator.extract_rank s r = Return (false, s1).
Proof.
  unfold evaluate_hand, HandEvaluator.init.
  destruct (arrange_total (sort_by_value hand)) as [_ ->].
  destruct (arrange_total hand) as [-> _].
  destruct (forallb (fun c => char_in (Card.suit c) SUITS) (sort_by_value hand));
    cbn [bind]; [|discriminate].
  destruct (forallb (fun c => char_in (Card.value c) VALUES) hand);
    cbn [bind]; [|discriminate].
  match goal with
  | |- context [HandEvaluator.evaluate ?s] =>
      assert (Hviews : views_of hand s) by (constructor; reflexivity);
      generalize dependent s
  end.
  intros s0 Hviews0.
  destruct (HandEvaluator.evaluate s0) as [[r1 s1]|] eqn:H1; cbn [bind]; [|discriminate].
  destruct (HandEvaluator.evaluate s1) as [[r2 s2]|] eqn:H2; cbn [bind]; [|discriminate].
  intros [= ->].
  destruct (evaluate_loop_found _ _ H1) as [Hocc1 _].
  destruct (evaluate_loop_skipped _ _ H2) as (pre & post & Heq & Hpre).
  exists pre, post. split; [assumption|].
  intros r Hr. destruct (Hpre r Hr) as (s & s' & Hs & Hx).
  exists s, s'. split; [|assumption].
  apply (only_cards_views Hs), (only_cards_views Hocc1), Hviews0.
Qed.

Lemma split_position {A : Type} (x : A) (pre pre' post post' : list A) :
  NoDup (pre ++ x :: post) ->
  pre ++ x :: post = pre' ++ x :: post' ->
  pre = pre'.
Proof.
  revert pre'. induction pre as [|a pre IH]; intros [|b pre'] Hnd Heq;
    cbn [app] in *.
  - reflexivity.
  - injection Heq as <- ->. inversion Hnd as [|? ? Hnotin _]; subst.
    elim Hnotin. apply in_or_app. right. now left.
  - injection Heq as -> <-. inversion Hnd as [|? ? Hnotin _]; subst.
    elim Hnotin. apply in_or_app. right. now left.
  - injection Heq as <- Heq. inversion Hnd; subst. f_equal. now apply IH.
Qed.

Lemma NoDup_RANKS : NoDup RANKS.
Proof.
  unfold RANKS. repeat (constructor; [simpl; intuition discriminate|]). constructor.
Qed.

(** The ranks tried before [rank], when [rank] is the one reported. *)
Lemma ranks_before (pre post pre' post' : list Rank) (rank : Rank) :
  RANKS = pre ++ rank :: post ->
  RANKS = pre' ++ rank :: post' ->
  pre = pre'.
Proof.
  intros H1 H2. apply (@split_position _ rank pre pre' post post').
  - rewrite <- H1. apply NoDup_RANKS.
  - congruence.
Qed.

Lemma straight_loop_complete (hand : list Card.t) (s : HandEvaluator.t) (seqs : list string) :
  views_of hand s ->
  forallb window seqs = true ->
  (exists sequence,
      In sequence seqs
      /\ forall v, In v (list_ascii_of_string sequence) ->
                   exists c, In c hand /\ Card.value c = v) ->
  exists s', HandEvaluator.straight_loop s seqs = Return (true, s').
Proof.
  intros Hviews. induction seqs as [|sequence seqs IH];
    cbn [HandEvaluator.straight_loop forallb]; intros Hw (sq & Hsq & Hpresent);
    [contradiction|].
  apply andb_prop in Hw as [Hw Hws].
  assert (Hin : forallb (fun v => char_in v VALUES) (list_ascii_of_string sequence) = true).
  { unfold window in Hw. apply andb_prop in Hw as [Hw _].
    now apply andb_prop in Hw as [_ Hw]. }
  rewrite (@all_present_spec hand _ _ (by_value_lookup Hviews) Hin). cbn [bind].
  destruct (forallb (fun v => (0 <? length (select Card.value v hand))%nat)
                    (list_ascii_of_string sequence)) eqn:Hall.
  - destruct (@first_of_each_spec hand _ _ (by_value_lookup Hviews) Hin Hall)
      as (cs & -> & _). cbn [bind]. eexists. reflexivity.
  - destruct Hsq as [<-|Hsq]; [|apply IH; [assumption | now exists sq]].
    exfalso. apply not_true_iff_false in Hall. apply Hall.
    apply forallb_forall. intros v Hv. destruct (Hpresent v Hv) as (c & Hc & Hcv).
    apply Nat.ltb_lt.
    assert (Hsel : In c (select Card.value v hand)).
    { apply filter_In. split; [assumption | now apply Ascii.eqb_eq]. }
    destruct (select Card.value v hand); [contradiction | cbn; lia].
Qed.

(** X22.  A hand that holds every value of one of the ten windows is reported as a
    Straight or as a rank tried before it. *)
Theorem straight_is_not_missed (hand : list Card.t) (rank : Rank)
    (ocs : option (list Card.t)) (sequence : string) :
  evaluate_hand hand = Return (Some (rank, ocs)) ->
  In sequence HandEvaluator.sequences ->
  (forall v, In v (list_ascii_of_string sequence) ->
             exists c, In c hand /\ Card.value c = v) ->
  In rank [royal_flush; straight_flush; full_house; flush; straight].
Proof.
  intros H Hsq Hpresent.
  destruct (evaluate_hand_found _ H) as (_ & s0 & s0' & _ & Hx0 & _).
  destruct (evaluate_hand_skipped _ H) as (pre & post & Heq & Hpre).
  assert (Hstraight : In straight pre -> False).
  { intros Hin. destruct (Hpre _ Hin) as (s & s1 & Hviews & Hx).
    destruct (@straight_loop_complete hand s HandEvaluator.sequences Hviews
                sequences_windows) as (s' & Hs').
    { now exists sequence. }
    cbn [HandEvaluator.extract_rank] in Hx.
    unfold HandEvaluator.extract_straight in Hx. congruence. }
  destruct rank; cbn [In]; auto 6.
  - cbn [HandEvaluator.extract_rank] in Hx0.
    apply extract_n_of_a_kind_never_found in Hx0. discriminate.
  - elim Hstraight.
    rewrite (@ranks_before pre post
               [royal_flush; straight_flush; four_of_a_kind; full_house; flush; straight]
               [two_pairs; pair; high_card] three_of_a_kind Heq eq_refl).
    cbn. tauto.
  - elim Hstraight.
    rewrite (@ranks_before pre post
               [royal_flush; straight_flush; four_of_a_kind; full_house; flush; straight;
                three_of_a_kind]
               [pair; high_card] two_pairs Heq eq_refl).
    cbn. tauto.
  - elim Hstraight.
    rewrite (@ranks_before pre post
               [royal_flush; straight_flush; four_of_a_kind; full_house; flush; straight;
                three_of_a_kind; two_pairs]
               [high_card] pair Heq eq_refl).
    cbn. tauto.
  - elim Hstraight.
    rewrite (@ranks_before pre post
               [royal_flush; straight_flush; four_of_a_kind; full_house; flush; straight;
                three_of_a_kind; two_pairs; pair]
               [] high_card Heq eq_refl).
    cbn. tauto.
Qed.

Lemma royal_flush_hand_is_not_missed :
  In royal_flush [royal_flush; straight_flush; full_house; flush; straight].
Proof.
  apply (@straight_is_not_missed royal_flush_hand royal_flush
           (Some [ Card.make 0 "A" "S"; Card.make 2 "Q" "S"; Card.make 1 "K" "S";
                   Card.make 3 "J" "S"; Card.make 4 "T" "S" ])
           "AQKJT").
  - vm_compute. reflexivity.
  - cbn. tauto.
  - intros v Hv. cbn in Hv.
    destruct Hv as [<-|[<-|[<-|[<-|[<-|[]]]]]].
    + exists (Card.make 0 "A" "S"). cbn. tauto.
    + exists (Card.make 2 "Q" "S"). cbn. tauto.
    + exists (Card.make 1 "K" "S"). cbn. tauto.
    + exists (Card.make 3 "J" "S"). cbn. tauto.
    + exists (Card.make 4 "T" "S"). cbn. tauto.
Defined.

Lemma filter_length_perm {A : Type} (p : A -> bool) (l l' : list A) :
  Permutation l l' -> length (filter p l) = length (filter p l').
Proof.
  induction 1 as [|x l l' _ IH|x y l|l l' l'' _ IH1 _ IH2]; cbn [filter].
  - reflexivity.
  - destruct (p x); cbn [length]; congruence.
  - destruct (p x), (p y); reflexivity.
  - congruence.
Qed.

Lemma extract_flush_complete (hand : list Card.t) (s : HandEvaluator.t) (su : ascii) :
  views_of hand s ->
  char_in su SUITS = true ->
  length (filter (fun c => Ascii.eqb (Card.suit c) su) hand) = 5 ->
  exists s', HandEvaluator.extract_flush s = Return (true, s').
Proof.
  intros Hviews Hsu Hfive. unfold HandEvaluator.extract_flush.
  set (fl := filter (fun lst => (length lst =? 5)%nat)
                    (map snd (HandEvaluator.by_suit s))).
  assert (Hin : In (select Card.suit su (sort_by_value hand)) fl).
  { apply filter_In. split.
    - rewrite (views_by_suit Hviews), map_map. apply in_map_iff.
      exists su. split; [reflexivity | now apply char_in_In].
    - apply Nat.eqb_eq. unfold select. rewrite <- Hfive.
      apply filter_length_perm, sort_reverse_perm. }
  assert (Hfl : forall x, In x fl -> length x = 5).
  { intros x Hx. apply filter_In in Hx as [_ Hx]. now apply Nat.eqb_eq. }
  clearbody fl. destruct fl as [|x0 fl']; [contradiction|].
  destruct (@flush_keys (x0 :: fl') Hfl) as (keyed & -> & Hsnd). cbn [bind].
  assert (Hperm : Permutation
                    (map snd (sort_reverse (fun a b => (fst a <? fst b)%Z) keyed))
                    (x0 :: fl')).
  { rewrite <- Hsnd. apply Permutation_map, sort_reverse_perm. }
  destruct (map snd (sort_reverse (fun a b => (fst a <? fst b)%Z) keyed)) as [|cs rest].
  { apply Permutation_nil in Hperm. discriminate. }
  cbn [list_index nth_error bind]. eexists. reflexivity.
Qed.

(** X23.  A hand that holds exactly five cards of some suit is reported as a Flush
    or as a rank tried before it. *)
Theorem flush_is_not_missed (hand : list Card.t) (rank : Rank)
    (ocs : option (list Card.t)) (su : ascii) :
  evaluate_hand hand = Return (Some (rank, ocs)) ->
  char_in su SUITS = true ->
  length (filter (fun c => Ascii.eqb (Card.suit c) su) hand) = 5 ->
  In rank [royal_flush; straight_flush; full_house; flush].
Proof.
  intros H Hsu Hfive.
  destruct (evaluate_hand_found _ H) as (_ & s0 & s0' & _ & Hx0 & _).
  destruct (evaluate_hand_skipped _ H) as (pre & post & Heq & Hpre).
  assert (Hflush : In flush pre -> False).
  { intros Hin. destruct (Hpre _ Hin) as (s & s1 & Hviews & Hx).
    destruct (@extract_flush_complete hand s su Hviews Hsu Hfive) as (s' & Hs').
    cbn [HandEvaluator.extract_rank] in Hx. congruence. }
  destruct rank; cbn [In]; auto 6.
  - cbn [HandEvaluator.extract_rank] in Hx0.
    apply extract_n_of_a_kind_never_found in Hx0. discriminate.
  - elim Hflush.
    rewrite (@ranks_before pre post
               [royal_flush; straight_flush; four_of_a_kind; full_house; flush]
               [three_of_a_kind; two_pairs; pair; high_card] straight Heq eq_refl).
    cbn. tauto.
  - elim Hflush.
    rewrite (@ranks_before pre post
               [royal_flush; straight_flush; four_of_a_kind; full_house; flush; straight]
               [two_pairs; pair; high_card] three_of_a_kind Heq eq_refl).
    cbn. tauto.
  - elim Hflush.
    rewrite (@ranks_before pre post
               [royal_flush; straight_flush; four_of_a_kind; full_house; flush; straight;
                three_of_a_kind]
               [pair; high_card] two_pairs Heq eq_refl).
    cbn. tauto.
  - elim Hflush.
    rewrite (@ranks_before pre post
               [royal_flush; straight_flush; four_of_a_kind; full_house; flush; straight;
                three_of_a_kind; two_pairs]
               [high_card] pair Heq eq_refl).
    cbn. tauto.
  - elim Hflush.
    rewrite (@ranks_before pre post
               [royal_flush; straight_flush; four_of_a_kind; full_house; flush; straight;
                three_of_a_kind; two_pairs; pair]
               [] high_card Heq eq_refl).
    cbn. tauto.
Qed.

Lemma flush_hand_is_not_missed :
  In flush [royal_flush; straight_flush; full_house; flush].
Proof.
  apply (@flush_is_not_missed flush_hand flush
           (Some [ Card.make 4 "T" "S"; Card.make 3 "8" "S"; Card.make 2 "6" "S";
                   Card.make 1 "4" "S"; Card.make 0 "2" "S" ])
           "S").
  - vm_compute. reflexivity.
  - reflexivity.
  - reflexivity.
Defined.
